(** * typed-config: deep merge, configuration resolution and the path accessor

    A shallow embedding of [src/index.ts]: the merge customizer
    [deepConfigMerge], the resolver [getConfigGetter] and the accessor it
    returns, together with the parts of the JavaScript runtime and of
    lodash's [mergeWith] that they run on.

    Domain of the model.  Values are JSON data plus [undefined]; numbers
    are restricted to integers (the code never computes with them, it only
    tests them for truthiness).  Property access sees own properties only:
    members that every object inherits from a builtin prototype
    ([toString], [constructor], [__proto__], ...) are not represented, and
    [wf_value] delimits the objects on which this makes no difference. *)

From Stdlib Require Import String Ascii List ZArith NArith Bool Lia DecimalString.
Import ListNotations.
Local Open Scope string_scope.
Local Open Scope list_scope.

(** ** JavaScript values *)

Unset Elimination Schemes.
Inductive value : Type :=
| VUndefined
| VNull
| VBool (b : bool)
| VNum (n : Z)
| VStr (s : string)
| VArr (elems : list value)
| VObj (props : list (string * value)).
Set Elimination Schemes.

(** The own enumerable properties of an object, in enumeration order. *)
Definition props : Type := list (string * value).

(** Induction over values that reaches inside arrays and objects. *)
Definition value_nested_ind (P : value -> Prop)
    (Hundef : P VUndefined) (Hnull : P VNull)
    (Hbool : forall b, P (VBool b)) (Hnum : forall n, P (VNum n))
    (Hstr : forall s, P (VStr s))
    (Harr : forall l, Forall P l -> P (VArr l))
    (Hobj : forall o, Forall (fun kv => P (snd kv)) o -> P (VObj o)) :
  forall v, P v :=
  fix F (v : value) : P v :=
    match v with
    | VUndefined => Hundef
    | VNull => Hnull
    | VBool b => Hbool b
    | VNum n => Hnum n
    | VStr s => Hstr s
    | VArr l =>
        Harr l ((fix G (l : list value) : Forall P l :=
                   match l with
                   | [] => Forall_nil P
                   | x :: r => Forall_cons x (F x) (G r)
                   end) l)
    | VObj o =>
        Hobj o ((fix G (o : props) : Forall (fun kv => P (snd kv)) o :=
                   match o with
                   | [] => Forall_nil _
                   | kv :: r => Forall_cons kv (F (snd kv)) (G r)
                   end) o)
    end.

(** Structural equality.  On primitives this is [===]; on arrays and
    objects JavaScript compares references, and two references to one
    object are in particular structurally equal. *)
Fixpoint value_eqb (x y : value) {struct x} : bool :=
  match x, y with
  | VUndefined, VUndefined => true
  | VNull, VNull => true
  | VBool a, VBool b => Bool.eqb a b
  | VNum a, VNum b => Z.eqb a b
  | VStr a, VStr b => String.eqb a b
  | VArr a, VArr b =>
      (fix go (l m : list value) : bool :=
         match l, m with
         | [], [] => true
         | u :: l', w :: m' => value_eqb u w && go l' m'
         | _, _ => false
         end) a b
  | VObj a, VObj b =>
      (fix go (l m : props) : bool :=
         match l, m with
         | [], [] => true
         | (k, u) :: l', (k', w) :: m' =>
             String.eqb k k' && value_eqb u w && go l' m'
         | _, _ => false
         end) a b
  | _, _ => false
  end.

(** ** Completions: a call returns, throws, or ends the process *)

Inductive exn : Type :=
| Error (message : string)        (* [new Error(message)] *)
| SyntaxError (message : string)  (* thrown by [JSON.parse] *)
| TypeError (message : string)    (* a call of something that is no function *)
| ZodError (detail : string).     (* thrown by [schema.parse] *)

Inductive completion (A : Type) : Type :=
| Return (a : A)
| Throw (e : exn)
| Exit (code : Z)                 (* [process.exit(code)] *)
| Unmodelled.                     (* a library path the model does not cover *)

Arguments Return {A} a.
Arguments Throw {A} e.
Arguments Exit {A} code.
Arguments Unmodelled {A}.

Definition bind {A B : Type} (c : completion A) (k : A -> completion B)
  : completion B :=
  match c with
  | Return a => k a
  | Throw e => Throw e
  | Exit n => Exit n
  | Unmodelled => Unmodelled
  end.

Notation "x <- c ;; k" := (bind c (fun x => k))
  (at level 61, c at next level, right associativity).

Definition fmap {A B : Type} (f : A -> B) (c : completion A) : completion B :=
  x <- c ;; Return (f x).

(** A completion of the kind a merge can have: a result or an exception. *)
Definition settled {A : Type} (c : completion A) : Prop :=
  match c with Return _ | Throw _ => True | Exit _ | Unmodelled => False end.

(** ** The JavaScript runtime *)

Module JS.

Definition is_undefined (v : value) : bool :=
  match v with VUndefined => true | _ => false end.

(** [v == null], the test behind [??] and [?.]. *)
Definition nullish (v : value) : bool :=
  match v with VUndefined | VNull => true | _ => false end.

(** [a ?? b] *)
Definition coalesce (a b : value) : value := if nullish a then b else a.

(** [typeof v] *)
Definition typeof (v : value) : string :=
  match v with
  | VUndefined => "undefined"
  | VNull => "object"
  | VBool _ => "boolean"
  | VNum _ => "number"
  | VStr _ => "string"
  | VArr _ => "object"
  | VObj _ => "object"
  end.

(** [!!v] *)
Definition truthy (v : value) : bool :=
  match v with
  | VUndefined | VNull => false
  | VBool b => b
  | VNum n => negb (n =? 0)%Z
  | VStr s => negb (s =? "")
  | VArr _ | VObj _ => true
  end.

(** [a || b] *)
Definition or (a b : value) : value := if truthy a then a else b.

(** [a && b] *)
Definition and (a b : value) : value := if truthy a then b else a.

Definition isArray (v : value) : bool :=
  match v with VArr _ => true | _ => false end.

(** [s.split(sep)] for a one-character separator. *)
Fixpoint split (sep : ascii) (s : string) : list string :=
  match s with
  | EmptyString => [EmptyString]
  | String c rest =>
      if Ascii.eqb c sep then EmptyString :: split sep rest
      else match split sep rest with
           | [] => [String c EmptyString]
           | seg :: segs => String c seg :: segs
           end
  end.

(** A property key that is an array index: the canonical decimal spelling
    of an integer below 2^32 - 1. *)
Definition array_index (k : string) : option N :=
  match k with
  | EmptyString => None
  | String c rest =>
      if Ascii.eqb c "0" && negb (rest =? "") then None
      else match NilEmpty.uint_of_string k with
           | Some d => let n := N.of_uint d in
                       if (n <? 4294967295)%N then Some n else None
           | None => None
           end
  end.

(** The key under which an array or a string holds its [i]-th element. *)
Definition index_key (i : nat) : string := NilZero.string_of_uint (Nat.to_uint i).

(** The characters of a string, each as a one-character string value. *)
Definition chars (s : string) : list value :=
  map (fun c => VStr (String c EmptyString)) (list_ascii_of_string s).

(** Own-property lookup in an object. *)
Fixpoint lookup (o : props) (k : string) : option value :=
  match o with
  | [] => None
  | (k', v) :: rest => if k' =? k then Some v else lookup rest k
  end.

(** [k in o], for own properties. *)
Definition has_own (o : props) (k : string) : bool :=
  match lookup o k with Some _ => true | None => false end.

Definition indexed (l : list value) (k : string) : value :=
  match array_index k with
  | Some i => nth (N.to_nat i) l VUndefined
  | None =>
      if k =? "length" then VNum (Z.of_nat (List.length l)) else VUndefined
  end.

(** [v[k]] for a [v] that is neither [null] nor [undefined]. *)
Definition member (v : value) (k : string) : value :=
  match v with
  | VObj o => match lookup o k with Some x => x | None => VUndefined end
  | VArr l => indexed l k
  | VStr s => indexed (chars s) k
  | _ => VUndefined
  end.

(** [v?.[k]] *)
Definition optMember (v : value) (k : string) : value :=
  if nullish v then VUndefined else member v k.

(** [o[k] = v] on an ordinary object: an existing property keeps its place;
    a new array-index key goes among the index keys in ascending order,
    which come first; any other new key goes last. *)
Fixpoint replaceProp (o : props) (k : string) (v : value) : props :=
  match o with
  | [] => []
  | (k', v') :: rest =>
      if k' =? k then (k, v) :: rest else (k', v') :: replaceProp rest k v
  end.

Fixpoint insertIndexProp (o : props) (i : N) (k : string) (v : value) : props :=
  match o with
  | [] => [(k, v)]
  | (k', v') :: rest =>
      match array_index k' with
      | Some j =>
          if (j <? i)%N then (k', v') :: insertIndexProp rest i k v
          else (k, v) :: o
      | None => (k, v) :: o
      end
  end.

Definition setProp (o : props) (k : string) (v : value) : props :=
  if has_own o k then replaceProp o k v
  else match array_index k with
       | Some i => insertIndexProp o i k v
       | None => o ++ [(k, v)]
       end.

(** [a.concat(...args)]: an argument that is an array contributes its
    elements, any other argument contributes itself. *)
Definition concatSpreadable (arg : value) : list value :=
  match arg with VArr l => l | _ => [arg] end.

Definition concat (a : list value) (args : list value) : list value :=
  a ++ flat_map concatSpreadable args.

End JS.

(** ** lodash's [mergeWith]

    [mergeWith(object, ...sources, customizer)] merges each truthy source
    into [object], one enumerable key at a time ([baseMerge] over
    [keysIn(source)]).  For every key the customizer is asked first; only
    when it answers [undefined] does lodash fall back on its own rule. *)

Module Lodash.

Definition isObject (v : value) : bool :=
  match v with VArr _ | VObj _ => true | _ => false end.

(** [object[key]].  (lodash answers [undefined] for the key [__proto__],
    which it never reads; the model has no case for that key and stands
    for objects without it, see [wf_value].) *)
Definition safeGet (object : props) (key : string) : value :=
  match JS.lookup object key with Some v => v | None => VUndefined end.

Definition baseAssignValue : props -> string -> value -> props := JS.setProp.

(** Writes [value] under [key] unless that leaves the object as it is:
    the same value is already there, or the value is [undefined] and the
    key exists. *)
Definition assignMergeValue (object : props) (key : string) (value : value)
  : props :=
  if (negb (JS.is_undefined value) && negb (value_eqb (safeGet object key) value))
     || (JS.is_undefined value && negb (JS.has_own object key))
  then baseAssignValue object key value
  else object.

Section Customized.

Variable customizer : value -> value -> string -> completion value.

(** One step of [baseMerge]'s loop.  A source value that is an object
    goes through [baseMergeDeep], where an [undefined] answer of the
    customizer starts lodash's own recursive merge: that path is left out
    here ([Unmodelled]), and [deepConfigMerge] never takes it
    ([deepConfigMerge_settled]).  Any other source value is itself the
    fallback for an [undefined] answer.  ([baseMergeDeep] reads the
    source value again through [safeGet], which differs from the value
    iterated only under the key [__proto__], outside the model.) *)
Definition mergeKey (object : props) (key : string) (srcValue : value)
  : completion props :=
  newValue <- customizer (safeGet object key) srcValue key ;;
  if isObject srcValue then
    if JS.is_undefined newValue then Unmodelled
    else Return (assignMergeValue object key newValue)
  else
    Return (assignMergeValue object key
              (if JS.is_undefined newValue then srcValue else newValue)).

(** [baseMerge] over the properties of an object source. *)
Fixpoint baseMergeProps (object : props) (source : props)
  : completion props :=
  match source with
  | [] => Return object
  | (key, srcValue) :: rest =>
      object' <- mergeKey object key srcValue ;;
      baseMergeProps object' rest
  end.

(** [baseMerge] over the elements of an array-like source, whose keys
    are the indices from [i] on. *)
Fixpoint baseMergeElems (object : props) (i : nat) (source : list value)
  : completion props :=
  match source with
  | [] => Return object
  | srcValue :: rest =>
      object' <- mergeKey object (JS.index_key i) srcValue ;;
      baseMergeElems object' (S i) rest
  end.

Definition baseMerge (object : props) (source : value) : completion props :=
  match source with
  | VObj o => baseMergeProps object o
  | VArr l => baseMergeElems object 0 l
  | VStr s => baseMergeElems object 0 (JS.chars s)
  | _ => Return object
  end.

(** [mergeWith(object, ...sources, customizer)]; falsy sources are
    skipped.  (lodash also checks whether it is being called as an
    iteratee, [isIterateeCall(sources[0], sources[1], sources[2])]; with
    JSON data as sources that check never holds: it needs [sources[1]]
    to be a number or string that is a key of the object [sources[2]]
    whose value there is the very object [sources[0]].) *)
Fixpoint mergeWith (object : props) (sources : list value)
  : completion props :=
  match sources with
  | [] => Return object
  | source :: rest =>
      object' <- (if JS.truthy source then baseMerge object source
                  else Return object) ;;
      mergeWith object' rest
  end.

End Customized.

End Lodash.

(** ** [deepConfigMerge], the customizer *)

(** What [mergeWith({}, objValue, ...)] has built once [objValue], an
    object, is merged into the fresh [{}]: every key finds nothing stored
    under it, so the customizer answers with its first branch,
    [objValue === undefined], and the property is copied.  That
    [deepConfigMerge], written with this copy, is the source's call of
    [mergeWith] is [deepConfigMerge_mergeWith]. *)
Definition firstBranch (objValue srcValue : value) (key : string)
  : completion value := Return srcValue.

Definition mergedIntoFresh (o : props) : completion props :=
  Lodash.baseMergeProps firstBranch [] o.

(** The customizer.  In its object branch the source calls
    [mergeWith({}, objValue, srcValue, deepConfigMerge)]: [objValue] is
    copied into the fresh object, then [srcValue] is merged in, key by
    key if it is an object, index by index if it is an array, and not at
    all if it is [null] (a falsy source). *)
Fixpoint deepConfigMerge (objValue srcValue : value) (key : string)
  {struct srcValue} : completion value :=
  if JS.is_undefined objValue then Return srcValue
  else if JS.is_undefined srcValue then Return objValue
  else
    match objValue with
    | VArr a =>
        (* We merge arrays *)
        (* the arguments spread out of
           [Array.isArray(srcValue) ? srcValue : [srcValue]] *)
        let args :=
          match srcValue with VArr b => b | _ => [srcValue] end in
        Return (VArr (JS.concat a args))
    | VObj o =>
        if negb (JS.typeof srcValue =? "object") then
          Throw (Error ("Cannot merge " ++ key ++ " into an object from type "
                        ++ JS.typeof srcValue))
        else
          object <- mergedIntoFresh o ;;
          fmap VObj
            match srcValue with
            | VObj s => Lodash.baseMergeProps deepConfigMerge object s
            | VArr l => Lodash.baseMergeElems deepConfigMerge object 0 l
            | _ => Return object
            end
    | _ => Return srcValue
    end.

(** ** [getConfigGetter] *)

(** The [jsonFile] option: [boolean | string]. *)
Inductive JsonFileOption : Type :=
| JsonFileFlag (enabled : bool)
| JsonFilePath (path : string).

(** The options bundle as the caller passes it; [None] is a key left out,
    for which [getConfigGetter] fills in its default.  (A key passed as
    [undefined] behaves as [prefix: null], [jsonFile: false],
    [commandLine: false] and no [defaultsFn] respectively.)  [defaultsFn]
    is given by the value it returns. *)
Record ConfigOptions : Type := {
  prefix : option string;
  jsonFile : option JsonFileOption;
  commandLine : option bool;
  defaultsFn : option value
}.

(** What the resolver reads from its process: [process.argv],
    [process.env.CONFIG_JSON_FILE] and the regular files of the file
    system, by path. *)
Record Process : Type := {
  argv : list string;
  env_CONFIG_JSON_FILE : option string;
  files : string -> option string
}.

(** The side effects of a resolution, in order.  Console events record
    what is printed about, not the exact text. *)
Inductive event : Type :=
| ConsoleWarn (positionals : value)
| ConsoleLogUsage (command : string)
| ConsoleLogConfig (data : value)
| FsExistsSync (path : value)
| FsReadFileSync (path : value).

Definition optionsJsonFile (options : ConfigOptions) : JsonFileOption :=
  match jsonFile options with Some j => j | None => JsonFileFlag true end.

Definition optionsCommandLine (options : ConfigOptions) : bool :=
  match commandLine options with Some b => b | None => true end.

(** [!!options.jsonFile] *)
Definition jsonFileEnabled (options : ConfigOptions) : bool :=
  match optionsJsonFile options with
  | JsonFileFlag b => b
  | JsonFilePath p => negb (p =? "")
  end.

(** A computation together with the side effects it has had. *)
Definition effect (A : Type) : Type := (list event * completion A)%type.

Definition ret {A : Type} (a : A) : effect A := ([], Return a).

Definition lift {A : Type} (c : completion A) : effect A := ([], c).

Definition emit (e : event) : effect unit := ([e], Return tt).

Definition exit {A : Type} (code : Z) : effect A := ([], Exit code).

Definition bindE {A B : Type} (m : effect A) (k : A -> effect B) : effect B :=
  match snd m with
  | Return a => (fst m ++ fst (k a), snd (k a))
  | Throw e => (fst m, Throw e)
  | Exit n => (fst m, Exit n)
  | Unmodelled => (fst m, Unmodelled)
  end.

Notation "x <~ m ;; k" := (bindE m (fun x => k))
  (at level 61, m at next level, right associativity).

Notation "m ;;; k" := (bindE m (fun _ => k))
  (at level 61, right associativity).

(** [fs.existsSync(path)]: false for anything that is not a path.  The
    file system of the model holds readable regular files only: a
    directory or an unreadable file, for which the check succeeds and the
    read then throws, is not represented. *)
Definition existsSync (process : Process) (path : value) : effect bool :=
  ([FsExistsSync path],
   Return match path with
          | VStr p =>
              match files process p with Some _ => true | None => false end
          | _ => false
          end).

(** [fs.readFileSync(path, 'utf8')] *)
Definition readFileSync (process : Process) (path : value) : effect string :=
  ([FsReadFileSync path],
   match path with
   | VStr p =>
       match files process p with
       | Some content => Return content
       | None => Throw (Error "ENOENT: no such file or directory")
       end
   | _ => Throw (TypeError "ERR_INVALID_ARG_TYPE")
   end).

(** [acc?.[k]] folded over the segments of a dotted path. *)
Definition walk (segments : list string) (root : value) : value :=
  fold_left JS.optMember segments root.

(** [x > 0] for the [length] read off the positionals. *)
Definition positive (v : value) : bool :=
  match v with VNum n => (0 <? n)%Z | _ => false end.

(** [console.warn(`Unrecognized command line options:
    ${parsedCommandLine._.join(' ')}`)] *)
Definition warnUnrecognized (positionals : value) : effect unit :=
  match positionals with
  | VArr _ => emit (ConsoleWarn positionals)
  | _ => lift (Throw (TypeError "parsedCommandLine._.join is not a function"))
  end.

(** [if (parsedCommandLine._?.length > 0) console.warn(...)] *)
Definition warnings (parsedCommandLine : value) : effect unit :=
  let positionals := JS.member parsedCommandLine "_" in
  if positive (JS.optMember positionals "length")
  then warnUnrecognized positionals
  else ret tt.

(** The accessor returned by [getConfigGetter], closed over [data].  The
    optional second argument is [None] when the caller leaves it out. *)
Definition getter (data : value) (key : string) (defaultValue : option value)
  : completion value :=
  let defaultValue :=
    match defaultValue with Some v => v | None => VUndefined end in
  let value := walk (JS.split "." key) data in
  if JS.is_undefined value then
    if JS.is_undefined defaultValue then
      Throw (Error ("The config variable '" ++ key ++ "' is not defined."))
    else Return defaultValue
  else Return value.

Section Resolver.

(** The external collaborators: the command-line tokenizer and the JSON
    reader.  [JSON_parse] either returns a value or throws. *)
Variable yargsParser : list string -> value.
Variable JSON_parse : string -> completion value.

Definition parsedCommandLine (options : ConfigOptions) (process : Process)
  : value :=
  if optionsCommandLine options then yargsParser (skipn 2 (argv process))
  else VObj [].

Definition configJsonFile (options : ConfigOptions) (process : Process)
  : value :=
  JS.or (JS.or (JS.or
    (JS.member (parsedCommandLine options process) "configJsonFile")
    (match env_CONFIG_JSON_FILE process with
     | Some p => VStr p
     | None => VUndefined
     end))
    (match optionsJsonFile options with
     | JsonFilePath p => VStr p
     | JsonFileFlag _ => VNull
     end))
    (VStr "./config.json").

Definition rawData (options : ConfigOptions) (process : Process)
  : effect value :=
  if jsonFileEnabled options then
    found <~ existsSync process (configJsonFile options process) ;;
    if (found : bool) then
      content <~ readFileSync process (configJsonFile options process) ;;
      lift (JSON_parse content)
    else ret (VObj [])
  else ret (VObj []).

Definition defaults (options : ConfigOptions) : value :=
  JS.coalesce
    (match defaultsFn options with Some v => v | None => VUndefined end)
    (VObj []).

Definition prefixedRaw (options : ConfigOptions) (rawData : value) : value :=
  match prefix options with
  | Some p => JS.and (VStr p) (walk (JS.split "." p) rawData)
  | None => VNull
  end.

(** The candidate handed to [schema.parse]. *)
Definition merged (options : ConfigOptions) (process : Process)
  (rawData : value) : completion value :=
  fmap VObj
    (Lodash.mergeWith deepConfigMerge []
       [ JS.coalesce (defaults options) (VObj []);
         rawData;
         JS.coalesce (prefixedRaw options rawData) (VObj []);
         parsedCommandLine options process ]).

(** [options.prefix ?? process.argv[1] ?? 'node <script>'] *)
Definition command (options : ConfigOptions) (process : Process) : string :=
  match prefix options with
  | Some p => p
  | None =>
      match nth_error (argv process) 1 with
      | Some a => a
      | None => "node <script>"
      end
  end.

(** The body of [getConfigGetter] up to the validated [data]. *)
Definition resolve (schema : value -> completion value)
  (options : ConfigOptions) (process : Process) : effect value :=
  let cl := parsedCommandLine options process in
  warnings cl ;;;
  if JS.truthy (JS.member cl "help") then
    emit (ConsoleLogUsage (command options process)) ;;; exit 0%Z
  else
    raw <~ rawData options process ;;
    candidate <~ lift (merged options process raw) ;;
    data <~ lift (schema candidate) ;;
    if JS.truthy (JS.member cl "printConfig") then
      emit (ConsoleLogConfig data) ;;; exit 0%Z
    else ret data.

Definition getConfigGetter (schema : value -> completion value)
  (options : ConfigOptions) (process : Process)
  : effect (string -> option value -> completion value) :=
  data <~ resolve schema options process ;;
  ret (getter data).

End Resolver.

(** ** The objects the model stands for *)

(** Names every object inherits from [Object.prototype]. *)
Definition inherited_names : list string :=
  [ "__proto__"; "constructor"; "hasOwnProperty"; "isPrototypeOf";
    "propertyIsEnumerable"; "toLocaleString"; "toString"; "valueOf";
    "__defineGetter__"; "__defineSetter__"; "__lookupGetter__";
    "__lookupSetter__" ].

Fixpoint distinct (ks : list string) : bool :=
  match ks with
  | [] => true
  | k :: rest => negb (existsb (String.eqb k) rest) && distinct rest
  end.

(** Enumeration order of an engine: array-index keys first and ascending,
    then the other keys. *)
Fixpoint enumeration_order (above : option N) (ks : list string) : bool :=
  match ks with
  | [] => true
  | k :: rest =>
      match JS.array_index k with
      | Some i =>
          match above with Some j => (j <? i)%N | None => true end
          && enumeration_order (Some i) rest
      | None =>
          forallb (fun k' => match JS.array_index k' with
                             | Some _ => false
                             | None => true
                             end) rest
      end
  end.

(** A value as [JSON.parse] or an object literal produces it: no key
    twice, keys in enumeration order, and no key that shadows an inherited
    member. *)
Fixpoint wf_value (v : value) : bool :=
  match v with
  | VArr l => forallb wf_value l
  | VObj o =>
      distinct (map fst o)
      && enumeration_order None (map fst o)
      && forallb (fun kv =>
                    negb (existsb (String.eqb (fst kv)) inherited_names)
                    && wf_value (snd kv)) o
  | _ => true
  end.

(** ** Vocabulary for the properties below *)

(** A boolean, a number or a string: the overrides whose [typeof] is
    neither ["object"] nor ["undefined"]. *)
Definition scalar (v : value) : bool :=
  match v with VBool _ | VNum _ | VStr _ => true | _ => false end.

(** The error [deepConfigMerge] throws: a scalar met an object. *)
Definition merge_conflict (e : exn) : Prop :=
  exists key s,
    scalar s = true
    /\ e = Error ("Cannot merge " ++ key ++ " into an object from type "
                  ++ JS.typeof s).

(** [null], a boolean or a number: a value without properties of its
    own. *)
Definition propertyless (v : value) : bool :=
  match v with VNull | VBool _ | VNum _ => true | _ => false end.

(** The sources before the command line, merged. *)
Definition earlierSources (options : ConfigOptions) (rawData : value)
  : completion props :=
  Lodash.mergeWith deepConfigMerge []
    [ JS.coalesce (defaults options) (VObj []);
      rawData;
      JS.coalesce (prefixedRaw options rawData) (VObj []) ].

(** The process with another argument vector. *)
Definition withArgv (process : Process) (args : list string) : Process :=
  {| argv := args;
     env_CONFIG_JSON_FILE := env_CONFIG_JSON_FILE process;
     files := files process |}.

(** ** Sample collaborators and inputs

    Stand-ins for the external components, used to run the resolver on
    concrete inputs. *)

Module Sample.

(** A tokenizer that has parsed the arguments into [output]. *)
Definition tokenizer (output : value) : list string -> value :=
  fun _ => output.

(** A JSON reader that knows one text. *)
Definition reader (text : string) (parsed : value)
  : string -> completion value :=
  fun content =>
    if content =? text then Return parsed
    else Throw (SyntaxError "Unexpected token").

(** A file system holding one file. *)
Definition oneFile (path content : string) : string -> option string :=
  fun p => if p =? path then Some content else None.

Definition noFiles : string -> option string := fun _ => None.

(** A schema in the manner of [z.object({k: z.number(), ...})]: the
    candidate must be an object with a number under every field; other
    keys are stripped. *)
Definition numberFields (fields : list string) (candidate : value)
  : completion value :=
  match candidate with
  | VObj _ =>
      if forallb (fun k => match JS.member candidate k with
                           | VNum _ => true
                           | _ => false
                           end) fields
      then Return (VObj (map (fun k => (k, JS.member candidate k)) fields))
      else Throw (ZodError "Expected number")
  | _ => Throw (ZodError "Expected object")
  end.

Definition options (pfx : option string) (dflt : option value)
  : ConfigOptions :=
  {| prefix := pfx; jsonFile := None; commandLine := None;
     defaultsFn := dflt |}.

Definition process (args : list string) (fs : string -> option string)
  : Process :=
  {| argv := "node" :: "app.js" :: args;
     env_CONFIG_JSON_FILE := None;
     files := fs |}.

(** The text of a JSON file together with the value it parses to. *)
Definition q : string := String (Ascii.ascii_of_nat 34) EmptyString.

Definition text_a2 : string := "{" ++ q ++ "a" ++ q ++ ":2}".
Definition json_a2 : value := VObj [("a", VNum 2)].

Definition text_apps : string :=
  "{" ++ q ++ "apps" ++ q ++ ":{" ++ q ++ "x" ++ q ++ ":{" ++ q ++ "v" ++ q
  ++ ":1}}," ++ q ++ "v" ++ q ++ ":2}".
Definition json_apps : value :=
  VObj [ ("apps", VObj [("x", VObj [("v", VNum 1)])]); ("v", VNum 2) ].

Definition text_list : string :=
  "{" ++ q ++ "a" ++ q ++ ":[{" ++ q ++ "v" ++ q ++ ":1}]}".
Definition json_list : value :=
  VObj [ ("a", VArr [VObj [("v", VNum 1)]]) ].

(** The validated configuration of the README's example. *)
Definition data : value :=
  VObj [ ("someValue", VStr "default value");
         ("someOtherValue", VNum 42);
         ("someObject", VObj [("someNestedValue", VBool false)]);
         ("nothing", VNull) ].

End Sample.

(** * Verification *)

(** ** Structural equality *)

Lemma value_eqb_eq : forall x y, value_eqb x y = true -> x = y.
Proof.
  induction x using value_nested_ind; destruct y; simpl; try discriminate;
    try reflexivity.
  - intros E. apply Bool.eqb_prop in E. now subst.
  - intros E. apply Z.eqb_eq in E. now subst.
  - intros E. apply String.eqb_eq in E. now subst.
  - revert elems. induction H as [|u l Hu _ IH]; intros [|w m] E;
      try discriminate; try reflexivity.
    apply andb_prop in E as [E1 E2].
    apply Hu in E1. apply IH in E2. congruence.
  - revert props0. induction H as [|[k u] l Hu _ IH]; intros [|[k' w] m] E;
      try discriminate; try reflexivity.
    apply andb_prop in E as [E12 E3]. apply andb_prop in E12 as [E1 E2].
    apply String.eqb_eq in E1. apply Hu in E2. apply IH in E3.
    simpl in *. congruence.
Qed.

Lemma is_undefined_true : forall v, JS.is_undefined v = true -> v = VUndefined.
Proof. now destruct v. Qed.

Lemma is_undefined_false :
  forall v, JS.is_undefined v = false <-> v <> VUndefined.
Proof. destruct v; simpl; split; congruence. Qed.

(** ** Property tables *)

Lemma lookup_replaceProp : forall o k v k',
  JS.lookup (JS.replaceProp o k v) k' =
  if k =? k' then (match JS.lookup o k with Some _ => Some v | None => None end)
  else JS.lookup o k'.
Proof.
  induction o as [|[k0 v0] o IH]; intros k v k'; simpl.
  - now destruct (k =? k').
  - destruct (String.eqb_spec k0 k) as [->|N0]; simpl.
    + destruct (String.eqb_spec k k') as [->|N]; [reflexivity|].
      reflexivity.
    + rewrite IH. destruct (String.eqb_spec k k') as [<-|N].
      * destruct (String.eqb_spec k0 k); [contradiction|reflexivity].
      * reflexivity.
Qed.

Lemma lookup_insertIndexProp : forall o i k v k',
  JS.lookup o k = None ->
  JS.lookup (JS.insertIndexProp o i k v) k' =
  if k =? k' then Some v else JS.lookup o k'.
Proof.
  induction o as [|[k0 v0] o IH]; intros i k v k' Hk; simpl in *.
  - reflexivity.
  - destruct (String.eqb_spec k0 k) as [->|N0]; [discriminate|].
    destruct (JS.array_index k0) as [j|]; [destruct (j <? i)%N|]; simpl;
      try reflexivity.
    rewrite IH by assumption.
    destruct (String.eqb_spec k k') as [<-|N].
    + destruct (String.eqb_spec k0 k); [contradiction|reflexivity].
    + reflexivity.
Qed.

Lemma lookup_app_new : forall o k v k',
  JS.lookup o k = None ->
  JS.lookup (o ++ [(k, v)]) k' = if k =? k' then Some v else JS.lookup o k'.
Proof.
  induction o as [|[k0 v0] o IH]; intros k v k' Hk; simpl in *.
  - reflexivity.
  - destruct (String.eqb_spec k0 k) as [->|N0]; [discriminate|].
    rewrite IH by assumption.
    destruct (String.eqb_spec k k') as [<-|N].
    + destruct (String.eqb_spec k0 k); [contradiction|reflexivity].
    + reflexivity.
Qed.

Lemma lookup_setProp : forall o k v k',
  JS.lookup (JS.setProp o k v) k' = if k =? k' then Some v else JS.lookup o k'.
Proof.
  intros o k v k'. unfold JS.setProp, JS.has_own.
  destruct (JS.lookup o k) eqn:E.
  - rewrite lookup_replaceProp, E. reflexivity.
  - destruct (JS.array_index k).
    + now apply lookup_insertIndexProp.
    + now apply lookup_app_new.
Qed.

(** ** [assignMergeValue] *)

Lemma safeGet_assignMergeValue : forall o k v k',
  Lodash.safeGet (Lodash.assignMergeValue o k v) k' =
  if k =? k'
  then (if JS.is_undefined v then Lodash.safeGet o k else v)
  else Lodash.safeGet o k'.
Proof.
  intros o k v k'. unfold Lodash.assignMergeValue, Lodash.baseAssignValue.
  destruct (JS.is_undefined v) eqn:U; simpl.
  - apply is_undefined_true in U. subst v.
    unfold JS.has_own, Lodash.safeGet at 1 3.
    destruct (JS.lookup o k) eqn:E; simpl.
    + destruct (String.eqb_spec k k') as [<-|N]; [|reflexivity].
      unfold Lodash.safeGet. now rewrite E.
    + rewrite lookup_setProp.
      destruct (String.eqb_spec k k') as [<-|N]; [|reflexivity].
      unfold Lodash.safeGet. now rewrite E.
  - rewrite orb_false_r.
    destruct (value_eqb (Lodash.safeGet o k) v) eqn:Q; simpl.
    + apply value_eqb_eq in Q.
      destruct (String.eqb_spec k k') as [<-|N]; [assumption|reflexivity].
    + unfold Lodash.safeGet at 1 2. rewrite lookup_setProp.
      now destruct (k =? k').
Qed.

Lemma has_own_assignMergeValue : forall o k v k',
  JS.has_own (Lodash.assignMergeValue o k v) k' = (k =? k') || JS.has_own o k'.
Proof.
  intros o k v k'. unfold Lodash.assignMergeValue, Lodash.baseAssignValue.
  destruct (JS.is_undefined v) eqn:U; simpl.
  - destruct (JS.has_own o k) eqn:H; simpl.
    + destruct (String.eqb_spec k k') as [<-|N]; [now rewrite H|reflexivity].
    + unfold JS.has_own. rewrite lookup_setProp. now destruct (k =? k').
  - rewrite orb_false_r.
    destruct (value_eqb (Lodash.safeGet o k) v) eqn:Q; simpl.
    + apply value_eqb_eq in Q.
      destruct (String.eqb_spec k k') as [<-|N]; [|reflexivity].
      unfold JS.has_own. unfold Lodash.safeGet in Q.
      destruct (JS.lookup o k); [reflexivity|]. now subst v.
    + unfold JS.has_own. rewrite lookup_setProp. now destruct (k =? k').
Qed.

(** ** The customizer, case by case *)

Lemma deepConfigMerge_base_undefined : forall s k,
  deepConfigMerge VUndefined s k = Return s.
Proof. now destruct s. Qed.

Lemma deepConfigMerge_override_undefined : forall o k,
  deepConfigMerge o VUndefined k = Return o.
Proof. now destruct o. Qed.

(** The customizer answers [undefined] only when both sides are. *)
Lemma deepConfigMerge_undefined_inv : forall o s k,
  deepConfigMerge o s k = Return VUndefined -> o = VUndefined /\ s = VUndefined.
Proof.
  intros o s k H.
  destruct o; [rewrite deepConfigMerge_base_undefined in H; now inversion H|..];
    destruct s; simpl in H; try discriminate;
    unfold fmap, bind in H;
    repeat match type of H with
           | context [match ?c with _ => _ end] => destruct c
           end; discriminate.
Qed.

Lemma mergeKey_deepConfigMerge : forall o k s,
  Lodash.mergeKey deepConfigMerge o k s =
  (r <- deepConfigMerge (Lodash.safeGet o k) s k ;;
   Return (Lodash.assignMergeValue o k r)).
Proof.
  intros o k s. unfold Lodash.mergeKey.
  destruct (deepConfigMerge (Lodash.safeGet o k) s k) as [r| | |] eqn:E;
    simpl; try reflexivity.
  destruct (JS.is_undefined r) eqn:U.
  - apply is_undefined_true in U. subst r.
    apply deepConfigMerge_undefined_inv in E as [_ ->]. reflexivity.
  - now destruct (Lodash.isObject s).
Qed.

Lemma mergeKey_firstBranch : forall o k s,
  Lodash.mergeKey firstBranch o k s = Return (Lodash.assignMergeValue o k s).
Proof. intros o k s. now destruct s. Qed.

(** ** The merge never leaves the model *)

Lemma baseMergeProps_firstBranch_returns : forall src acc,
  exists o', Lodash.baseMergeProps firstBranch acc src = Return o'.
Proof.
  induction src as [|[k v] src IH]; intros acc; simpl.
  - now exists acc.
  - rewrite mergeKey_firstBranch. simpl. apply IH.
Qed.

Lemma baseMergeProps_settled : forall src,
  Forall (fun kv => forall o k, settled (deepConfigMerge o (snd kv) k)) src ->
  forall acc, settled (Lodash.baseMergeProps deepConfigMerge acc src).
Proof.
  induction 1 as [|[k v] src Hv _ IH]; intros acc; simpl.
  - exact I.
  - rewrite mergeKey_deepConfigMerge. simpl in Hv.
    specialize (Hv (Lodash.safeGet acc k) k).
    destruct (deepConfigMerge (Lodash.safeGet acc k) v k); simpl in *;
      try contradiction; auto.
Qed.

Lemma baseMergeElems_settled : forall src,
  Forall (fun v => forall o k, settled (deepConfigMerge o v k)) src ->
  forall acc i, settled (Lodash.baseMergeElems deepConfigMerge acc i src).
Proof.
  induction 1 as [|v src Hv _ IH]; intros acc i; simpl.
  - exact I.
  - rewrite mergeKey_deepConfigMerge.
    specialize (Hv (Lodash.safeGet acc (JS.index_key i)) (JS.index_key i)).
    destruct (deepConfigMerge _ v _); simpl in *; try contradiction; auto.
Qed.

Lemma settled_fmap : forall (A B : Type) (f : A -> B) (c : completion A),
  settled c -> settled (fmap f c).
Proof. intros A B f [a|e|n|]; simpl; auto. Qed.

(** [deepConfigMerge] always returns or throws: the path of lodash that
    [mergeKey] leaves out is never taken. *)
Lemma deepConfigMerge_settled :
  forall s base k, settled (deepConfigMerge base s k).
Proof.
  induction s using value_nested_ind; intros base k;
    try (destruct base; simpl; exact I).
  - (* null *)
    destruct base as [| | | | | |a]; simpl; try exact I.
    unfold mergedIntoFresh.
    destruct (baseMergeProps_firstBranch_returns a []) as [o' ->].
    exact I.
  - (* array *)
    destruct base as [| | | | | |a]; simpl; try exact I.
    unfold mergedIntoFresh.
    destruct (baseMergeProps_firstBranch_returns a []) as [o' ->].
    simpl. apply settled_fmap. now apply baseMergeElems_settled.
  - (* object *)
    destruct base as [| | | | | |a]; simpl; try exact I.
    unfold mergedIntoFresh.
    destruct (baseMergeProps_firstBranch_returns a []) as [o' ->].
    simpl. apply settled_fmap. now apply baseMergeProps_settled.
Qed.

Lemma baseMerge_settled : forall acc source,
  settled (Lodash.baseMerge deepConfigMerge acc source).
Proof.
  intros acc [| | | |s|l|o]; simpl; try exact I.
  - apply baseMergeElems_settled, Forall_forall.
    intros; apply deepConfigMerge_settled.
  - apply baseMergeElems_settled, Forall_forall.
    intros; apply deepConfigMerge_settled.
  - apply baseMergeProps_settled, Forall_forall.
    intros; apply deepConfigMerge_settled.
Qed.

Lemma mergeWith_settled : forall sources acc,
  settled (Lodash.mergeWith deepConfigMerge acc sources).
Proof.
  induction sources as [|s sources IH]; intros acc; simpl; [exact I|].
  destruct (JS.truthy s); simpl; [|apply IH].
  pose proof (baseMerge_settled acc s) as H.
  destruct (Lodash.baseMerge deepConfigMerge acc s); simpl in *;
    try contradiction; auto.
Qed.

(** ** Merging one object into another, key by key *)

Lemma lookup_not_key : forall o k,
  existsb (String.eqb k) (map fst o) = false -> JS.lookup o k = None.
Proof.
  induction o as [|[k0 v0] o IH]; intros k H; simpl in *; [reflexivity|].
  apply orb_false_elim in H as [H1 H2].
  rewrite String.eqb_sym in H1. rewrite H1. now apply IH.
Qed.

Lemma safeGet_cons : forall k0 v0 o k,
  Lodash.safeGet ((k0, v0) :: o) k =
  if k0 =? k then v0 else Lodash.safeGet o k.
Proof.
  intros. unfold Lodash.safeGet. simpl. now destruct (k0 =? k).
Qed.

(** A successful merge of [src] into [acc] holds under every key the
    customizer's answer for the two values stored under that key. *)
Lemma baseMergeProps_returns : forall src acc m,
  distinct (map fst src) = true ->
  Lodash.baseMergeProps deepConfigMerge acc src = Return m ->
  forall k,
    deepConfigMerge (Lodash.safeGet acc k) (Lodash.safeGet src k) k
    = Return (Lodash.safeGet m k).
Proof.
  induction src as [|[k0 v0] src IH]; intros acc m D H k; simpl in D, H.
  - inversion H; subst.
    change (Lodash.safeGet [] k) with VUndefined.
    apply deepConfigMerge_override_undefined.
  - apply andb_prop in D as [D0 D].
    apply negb_true_iff in D0.
    rewrite mergeKey_deepConfigMerge in H.
    destruct (deepConfigMerge (Lodash.safeGet acc k0) v0 k0) as [r| | |] eqn:E;
      simpl in H; try discriminate.
    specialize (IH _ _ D H). rewrite safeGet_cons.
    destruct (String.eqb_spec k0 k) as [<-|N].
    + specialize (IH k0).
      unfold Lodash.safeGet at 2 in IH.
      rewrite (lookup_not_key _ _ D0) in IH.
      rewrite deepConfigMerge_override_undefined in IH.
      injection IH as Q. rewrite <- Q.
      rewrite safeGet_assignMergeValue, String.eqb_refl.
      destruct (JS.is_undefined r) eqn:U; [|assumption].
      apply is_undefined_true in U. subst r.
      destruct (deepConfigMerge_undefined_inv _ _ _ E) as [-> ->].
      reflexivity.
    + specialize (IH k).
      rewrite safeGet_assignMergeValue in IH.
      destruct (String.eqb_spec k0 k); [contradiction|assumption].
Qed.

(** A failed merge fails with what the customizer throws for one of the
    source's keys. *)
Lemma baseMergeProps_throws : forall src acc e,
  distinct (map fst src) = true ->
  Lodash.baseMergeProps deepConfigMerge acc src = Throw e ->
  exists k, In k (map fst src) /\
    deepConfigMerge (Lodash.safeGet acc k) (Lodash.safeGet src k) k = Throw e.
Proof.
  induction src as [|[k0 v0] src IH]; intros acc e D H; simpl in D, H.
  - discriminate.
  - apply andb_prop in D as [D0 D].
    apply negb_true_iff in D0.
    rewrite mergeKey_deepConfigMerge in H.
    destruct (deepConfigMerge (Lodash.safeGet acc k0) v0 k0) as [r| | |] eqn:E;
      simpl in H; try discriminate.
    + destruct (IH _ _ D H) as (k & Hin & Hk).
      exists k. split; [now right|].
      assert (N : k0 <> k).
      { intros <-. apply in_map_iff in Hin as ([k' v'] & Q & Hin).
        simpl in Q. subst k'.
        assert (X : existsb (String.eqb k0) (map fst src) = true).
        { apply existsb_exists. exists k0. split.
          - apply in_map_iff. now exists (k0, v').
          - apply String.eqb_refl. }
        congruence. }
      rewrite safeGet_cons. rewrite safeGet_assignMergeValue in Hk.
      destruct (String.eqb_spec k0 k); [contradiction|assumption].
    + inversion H; subst. exists k0. split; [now left|].
      now rewrite safeGet_cons, String.eqb_refl.
Qed.

Lemma has_own_cons : forall k0 v0 o k,
  JS.has_own ((k0, v0) :: o) k = (k0 =? k) || JS.has_own o k.
Proof. intros. unfold JS.has_own. simpl. now destruct (k0 =? k). Qed.

Lemma has_own_not_key : forall o k,
  existsb (String.eqb k) (map fst o) = false -> JS.has_own o k = false.
Proof. intros o k H. unfold JS.has_own. now rewrite lookup_not_key. Qed.

Lemma safeGet_no_own : forall o k,
  JS.has_own o k = false -> Lodash.safeGet o k = VUndefined.
Proof.
  intros o k. unfold JS.has_own, Lodash.safeGet.
  now destruct (JS.lookup o k).
Qed.

Lemma baseMergeProps_keys : forall src acc m,
  Lodash.baseMergeProps deepConfigMerge acc src = Return m ->
  forall k, JS.has_own m k = JS.has_own acc k || JS.has_own src k.
Proof.
  induction src as [|[k0 v0] src IH]; intros acc m H k; simpl in H.
  - injection H as <-. now rewrite orb_false_r.
  - rewrite mergeKey_deepConfigMerge in H.
    destruct (deepConfigMerge (Lodash.safeGet acc k0) v0 k0) as [r| | |];
      simpl in H; try discriminate.
    rewrite (IH _ _ H), has_own_assignMergeValue, has_own_cons.
    destruct (k0 =? k), (JS.has_own acc k); reflexivity.
Qed.

(** Merging an object into a table that has none of its keys copies it. *)
Lemma baseMergeProps_firstBranch_copy : forall src acc m,
  distinct (map fst src) = true ->
  (forall k, JS.has_own src k = true -> JS.has_own acc k = false) ->
  Lodash.baseMergeProps firstBranch acc src = Return m ->
  forall k,
    Lodash.safeGet m k =
      (if JS.has_own src k then Lodash.safeGet src k else Lodash.safeGet acc k)
    /\ JS.has_own m k = JS.has_own acc k || JS.has_own src k.
Proof.
  induction src as [|[k0 v0] src IH]; intros acc m D Hacc H k; simpl in D, H.
  - injection H as <-. now rewrite orb_false_r.
  - apply andb_prop in D as [D0 D]. apply negb_true_iff in D0.
    rewrite mergeKey_firstBranch in H. simpl in H.
    assert (A0 : JS.has_own acc k0 = false).
    { apply Hacc. now rewrite has_own_cons, String.eqb_refl. }
    assert (Hacc' : forall k', JS.has_own src k' = true ->
              JS.has_own (Lodash.assignMergeValue acc k0 v0) k' = false).
    { intros k' Hk'. rewrite has_own_assignMergeValue.
      destruct (String.eqb_spec k0 k') as [<-|N].
      - rewrite (has_own_not_key _ _ D0) in Hk'. discriminate.
      - simpl. apply Hacc. rewrite has_own_cons, Hk'. apply orb_true_r. }
    destruct (IH _ _ D Hacc' H k) as [G K].
    rewrite G, K, has_own_cons, safeGet_cons,
      safeGet_assignMergeValue, has_own_assignMergeValue.
    destruct (String.eqb_spec k0 k) as [<-|N]; simpl.
    + rewrite (has_own_not_key _ _ D0).
      split; [|now rewrite orb_true_r].
      destruct (JS.is_undefined v0) eqn:U; [|reflexivity].
      apply is_undefined_true in U. subst v0. now apply safeGet_no_own.
    + split; [reflexivity|].
      now destruct (JS.has_own acc k), (JS.has_own src k).
Qed.

Lemma mergedIntoFresh_copy : forall o,
  distinct (map fst o) = true ->
  exists o', mergedIntoFresh o = Return o' /\
    forall k, Lodash.safeGet o' k = Lodash.safeGet o k
              /\ JS.has_own o' k = JS.has_own o k.
Proof.
  intros o D. unfold mergedIntoFresh.
  destruct (baseMergeProps_firstBranch_returns o []) as [o' H].
  exists o'. split; [assumption|]. intros k.
  destruct (baseMergeProps_firstBranch_copy o [] o' D (fun _ _ => eq_refl) H k)
    as [G K].
  rewrite G, K. split; [|reflexivity].
  destruct (JS.has_own o k) eqn:E; [reflexivity|].
  now rewrite (safeGet_no_own o k E).
Qed.

(** With the real customizer the copy comes out the same: the fixpoint
    [deepConfigMerge] is the source's
    [mergeWith({}, objValue, srcValue, deepConfigMerge)]. *)
Lemma baseMergeProps_fresh_keys : forall src acc,
  distinct (map fst src) = true ->
  (forall k, JS.has_own src k = true -> JS.has_own acc k = false) ->
  Lodash.baseMergeProps deepConfigMerge acc src
  = Lodash.baseMergeProps firstBranch acc src.
Proof.
  induction src as [|[k0 v0] src IH]; intros acc D Hacc; simpl in *.
  - reflexivity.
  - apply andb_prop in D as [D0 D]. apply negb_true_iff in D0.
    rewrite mergeKey_deepConfigMerge, mergeKey_firstBranch.
    assert (A0 : JS.has_own acc k0 = false).
    { apply Hacc. now rewrite has_own_cons, String.eqb_refl. }
    rewrite (safeGet_no_own _ _ A0), deepConfigMerge_base_undefined. simpl.
    apply IH; [assumption|].
    intros k' Hk'. rewrite has_own_assignMergeValue.
    destruct (String.eqb_spec k0 k') as [<-|N].
    + rewrite (has_own_not_key _ _ D0) in Hk'. discriminate.
    + simpl. apply Hacc. rewrite has_own_cons, Hk'. apply orb_true_r.
Qed.

Lemma deepConfigMerge_mergeWith : forall o s key,
  distinct (map fst o) = true ->
  JS.typeof s = "object" ->
  deepConfigMerge (VObj o) s key
  = fmap VObj (Lodash.mergeWith deepConfigMerge [] [VObj o; s]).
Proof.
  intros o s key D T.
  destruct s; try discriminate; simpl;
    rewrite (baseMergeProps_fresh_keys o [] D (fun _ _ => eq_refl));
    unfold mergedIntoFresh;
    destruct (Lodash.baseMergeProps firstBranch [] o); simpl; try reflexivity.
  - now destruct (Lodash.baseMergeElems deepConfigMerge a 0 elems).
  - now destruct (Lodash.baseMergeProps deepConfigMerge a props0).
Qed.

(** ** Copying a well-formed object *)

Lemma value_eqb_undefined : forall v,
  JS.is_undefined v = false -> value_eqb VUndefined v = false.
Proof. now destruct v. Qed.

Lemma distinct_app_last : forall ks k rest,
  distinct (ks ++ k :: rest) = true ->
  existsb (String.eqb k) ks = false.
Proof.
  induction ks as [|k0 ks IH]; intros k rest D; simpl in *; [reflexivity|].
  apply andb_prop in D as [D0 D]. apply negb_true_iff in D0.
  rewrite (IH _ _ D), orb_false_r.
  destruct (String.eqb_spec k k0) as [->|N]; [|reflexivity].
  rewrite existsb_app in D0. simpl in D0.
  rewrite String.eqb_refl, orb_true_r in D0. discriminate.
Qed.

(** In enumeration order, every key before an array index is a smaller
    array index. *)
Lemma enumeration_order_before_index : forall ks above k rest i,
  enumeration_order above (ks ++ k :: rest) = true ->
  JS.array_index k = Some i ->
  match above with Some a => (a <? i)%N = true | None => True end
  /\ Forall (fun k' => exists j, JS.array_index k' = Some j
                                 /\ (j <? i)%N = true) ks.
Proof.
  induction ks as [|k0 ks IH]; intros above k rest i H Hi; simpl in H.
  - rewrite Hi in H. apply andb_prop in H as [H _].
    split; [|constructor]. now destruct above.
  - destruct (JS.array_index k0) as [j0|] eqn:E0.
    + apply andb_prop in H as [Ha H].
      destruct (IH (Some j0) k rest i H Hi) as [Hj F].
      split.
      * destruct above as [a|]; [|exact I].
        apply N.ltb_lt in Ha, Hj. apply N.ltb_lt. lia.
      * constructor; [|assumption]. now exists j0.
    + rewrite forallb_app in H. apply andb_prop in H as [_ H].
      simpl in H. now rewrite Hi in H.
Qed.

Lemma insertIndexProp_last : forall o i k v,
  Forall (fun k' => exists j, JS.array_index k' = Some j
                              /\ (j <? i)%N = true) (map fst o) ->
  JS.insertIndexProp o i k v = o ++ [(k, v)].
Proof.
  induction o as [|[k0 v0] o IH]; intros i k v F; simpl.
  - reflexivity.
  - inversion F as [|? ? (j & Hj & Hlt) F']; subst. simpl in Hj.
    rewrite Hj, Hlt. now rewrite IH.
Qed.

Lemma assignMergeValue_new_key : forall acc k v rest,
  distinct (map fst (acc ++ (k, v) :: rest)) = true ->
  enumeration_order None (map fst (acc ++ (k, v) :: rest)) = true ->
  Lodash.assignMergeValue acc k v = acc ++ [(k, v)].
Proof.
  intros acc k v rest D O. rewrite map_app in D, O. simpl in D, O.
  pose proof (has_own_not_key acc k (distinct_app_last _ _ _ D)) as Hk.
  unfold Lodash.assignMergeValue. rewrite Hk, (safeGet_no_own _ _ Hk).
  assert (C : (negb (JS.is_undefined v) && negb (value_eqb VUndefined v))
              || (JS.is_undefined v && negb false) = true).
  { destruct (JS.is_undefined v) eqn:U; [reflexivity|].
    now rewrite (value_eqb_undefined v U). }
  rewrite C. unfold Lodash.baseAssignValue, JS.setProp. rewrite Hk.
  destruct (JS.array_index k) as [i|] eqn:Hi; [|reflexivity].
  apply insertIndexProp_last.
  exact (proj2 (enumeration_order_before_index _ None k _ i O Hi)).
Qed.

Lemma baseMergeProps_firstBranch_wf : forall src acc,
  distinct (map fst (acc ++ src)) = true ->
  enumeration_order None (map fst (acc ++ src)) = true ->
  Lodash.baseMergeProps firstBranch acc src = Return (acc ++ src).
Proof.
  induction src as [|[k v] src IH]; intros acc D O; simpl.
  - now rewrite app_nil_r.
  - rewrite mergeKey_firstBranch. simpl.
    rewrite (assignMergeValue_new_key acc k v src D O).
    replace (acc ++ (k, v) :: src) with ((acc ++ [(k, v)]) ++ src) in *
      by (now rewrite <- app_assoc).
    now apply IH.
Qed.

(** Merged into the fresh [{}], a well-formed object comes out as it
    is. *)
Lemma mergedIntoFresh_wf : forall o,
  wf_value (VObj o) = true -> mergedIntoFresh o = Return o.
Proof.
  intros o W. simpl in W.
  apply andb_prop in W as [W _]. apply andb_prop in W as [D O].
  exact (baseMergeProps_firstBranch_wf o [] D O).
Qed.

(** Overrides that leave a well-formed mapping as it is: the empty
    mapping and [null]. *)
Lemma deepConfigMerge_empty_override : forall o key,
  wf_value (VObj o) = true ->
  deepConfigMerge (VObj o) (VObj []) key = Return (VObj o).
Proof.
  intros o key W. simpl. now rewrite (mergedIntoFresh_wf o W).
Qed.

Lemma deepConfigMerge_null_override : forall o key,
  wf_value (VObj o) = true ->
  deepConfigMerge (VObj o) VNull key = Return (VObj o).
Proof.
  intros o key W. simpl. now rewrite (mergedIntoFresh_wf o W).
Qed.

(** ** The path accessor *)

Lemma walk_undefined : forall segments, walk segments VUndefined = VUndefined.
Proof. induction segments; simpl; auto. Qed.

Lemma walk_app : forall pre post root,
  walk (pre ++ post) root = walk post (walk pre root).
Proof. intros. unfold walk. apply fold_left_app. Qed.

Lemma split_not_nil : forall sep s, JS.split sep s <> [].
Proof.
  intros sep s. destruct s as [|c s]; simpl; [discriminate|].
  destruct (Ascii.eqb c sep); [discriminate|].
  destruct (JS.split sep s); discriminate.
Qed.

(** C8: the accessor walks the validated configuration along the segments
    of the key path; a final value other than [undefined] is returned; when
    the final value is [undefined], a supplied fallback (one that is not
    itself [undefined]) is returned, and without a fallback the accessor
    throws an error whose message names the key path. *)
Theorem C8_accessor_value_fallback_or_error :
  forall (data : value) (key : string),
    let final := walk (JS.split "." key) data in
    (forall segment segments root,
        walk (segment :: segments) root
        = walk segments (JS.optMember root segment))
    /\ (final <> VUndefined ->
        forall fallback, getter data key fallback = Return final)
    /\ (final = VUndefined ->
        forall fallback, fallback <> VUndefined ->
          getter data key (Some fallback) = Return fallback)
    /\ (final = VUndefined ->
        getter data key None
        = Throw (Error ("The config variable '" ++ key
                        ++ "' is not defined."))).
Proof.
  intros data key final. unfold getter. fold final.
  repeat split.
  - intros Hf fallback. apply is_undefined_false in Hf. now rewrite Hf.
  - intros Hf fallback Hfb. rewrite Hf. simpl.
    apply is_undefined_false in Hfb. now rewrite Hfb.
  - intros Hf. now rewrite Hf.
Qed.

Lemma C8_accessor_witness :
  getter Sample.data "someObject.someNestedValue" None = Return (VBool false)
  /\ getter Sample.data "missing.key" (Some (VNum 7)) = Return (VNum 7)
  /\ getter Sample.data "missing.key" None
     = Throw (Error "The config variable 'missing.key' is not defined.").
Proof.
  split; [|split].
  - apply (proj1 (proj2 (C8_accessor_value_fallback_or_error
                           Sample.data "someObject.someNestedValue"))).
    discriminate.
  - apply (proj1 (proj2 (proj2 (C8_accessor_value_fallback_or_error
                                  Sample.data "missing.key")))).
    + reflexivity.
    + discriminate.
  - apply (proj2 (proj2 (proj2 (C8_accessor_value_fallback_or_error
                                  Sample.data "missing.key")))).
    reflexivity.
Defined.

(** C9: presence is decided by comparison with [undefined] alone.  A
    [null] stored at the path is returned whatever the fallback, and
    passing [undefined] as the fallback is the same as passing none, so an
    absent path then makes the accessor throw. *)
Theorem C9_accessor_null_and_undefined_fallback :
  forall (data : value) (key : string),
    (walk (JS.split "." key) data = VNull ->
     forall fallback, getter data key fallback = Return VNull)
    /\ getter data key (Some VUndefined) = getter data key None
    /\ (walk (JS.split "." key) data = VUndefined ->
        getter data key (Some VUndefined)
        = Throw (Error ("The config variable '" ++ key
                        ++ "' is not defined."))).
Proof.
  intros data key. unfold getter. repeat split.
  - intros Hn fallback. now rewrite Hn.
  - intros Hu. now rewrite Hu.
Qed.

Lemma C9_accessor_witness :
  getter Sample.data "nothing" (Some (VNum 7)) = Return VNull
  /\ getter Sample.data "missing" (Some VUndefined)
     = Throw (Error "The config variable 'missing' is not defined.").
Proof.
  split.
  - apply (proj1 (C9_accessor_null_and_undefined_fallback
                    Sample.data "nothing")).
    reflexivity.
  - apply (proj2 (proj2 (C9_accessor_null_and_undefined_fallback
                           Sample.data "missing"))).
    reflexivity.
Defined.

(** ** Sequences *)

(** What the array branch computes: the base followed by the override's
    elements, where an element that is itself an array is replaced by its
    own elements. *)
Lemma deepConfigMerge_arrays : forall a b key,
  deepConfigMerge (VArr a) (VArr b) key
  = Return (VArr (a ++ flat_map JS.concatSpreadable b)).
Proof. reflexivity. Qed.

Lemma flat_map_not_arrays : forall b,
  forallb (fun v => negb (JS.isArray v)) b = true ->
  flat_map JS.concatSpreadable b = b.
Proof.
  induction b as [|v b IH]; simpl; intros H; [reflexivity|].
  apply andb_prop in H as [Hv Hb]. rewrite (IH Hb). now destruct v.
Qed.

(** Appending holds as long as no element of the override is an array. *)
Lemma deepConfigMerge_arrays_flat : forall a b key,
  forallb (fun v => negb (JS.isArray v)) b = true ->
  deepConfigMerge (VArr a) (VArr b) key = Return (VArr (a ++ b)).
Proof.
  intros a b key H. now rewrite deepConfigMerge_arrays, flat_map_not_arrays.
Qed.

(** An override that is not a sequence is appended as one element. *)
Lemma deepConfigMerge_array_scalar : forall a s key,
  s <> VUndefined -> JS.isArray s = false ->
  deepConfigMerge (VArr a) s key = Return (VArr (a ++ [s])).
Proof.
  intros a s key Hs Ha. destruct s; simpl in *; try congruence; reflexivity.
Qed.

(** C2, at an input where the code departs from it: merging the base
    [[[1]]] with the override [[[2, 3]]] yields [[[1], 2, 3]].  The
    override's one element, itself an array, is spread into its elements:
    the result is not the base followed by the elements of the override,
    and its length is 3, not 1 + 1. *)
Theorem C2_array_element_is_spread :
  let A := [VArr [VNum 1]] in
  let B := [VArr [VNum 2; VNum 3]] in
  deepConfigMerge (VArr A) (VArr B) "matrix"
    = Return (VArr [VArr [VNum 1]; VNum 2; VNum 3])
  /\ deepConfigMerge (VArr A) (VArr B) "matrix" <> Return (VArr (A ++ B))
  /\ List.length [VArr [VNum 1]; VNum 2; VNum 3]
       <> (List.length A + List.length B)%nat.
Proof.
  simpl. repeat split; discriminate.
Qed.

(** ** Mappings *)

Lemma wf_object_distinct : forall o,
  wf_value (VObj o) = true -> distinct (map fst o) = true.
Proof.
  intros o H. simpl in H.
  apply andb_prop in H as [H _]. now apply andb_prop in H as [H _].
Qed.

(** C3, at inputs where the code departs from it: an override that is
    [null], or an array, is not a mapping, yet merging it into a mapping
    throws nothing.  Both have [typeof] ["object"] and pass the guard
    [typeof srcValue !== 'object']: [null] leaves the base as it is and an
    array is merged into it index by index.  So a JSON file holding
    [{server: null}] or [{server: [7]}] over defaults
    [{server: {port: 80}}] resolves without a merge conflict. *)
Theorem C3_null_and_array_overrides_pass_the_guard :
  let base := VObj [("port", VNum 80)] in
  let options := Sample.options None (Some (VObj [("server", base)])) in
  let tokens := Sample.tokenizer (VObj [("_", VArr [])]) in
  JS.typeof VNull = "object"
  /\ JS.typeof (VArr [VNum 7]) = "object"
  /\ deepConfigMerge base VNull "server" = Return base
  /\ deepConfigMerge base (VArr [VNum 7]) "server"
     = Return (VObj [("0", VNum 7); ("port", VNum 80)])
  /\ merged tokens options (Sample.process [] Sample.noFiles)
       (VObj [("server", VNull)])
     = Return (VObj [("server", base); ("_", VArr [])])
  /\ merged tokens options (Sample.process [] Sample.noFiles)
       (VObj [("server", VArr [VNum 7])])
     = Return (VObj [ ("server", VObj [("0", VNum 7); ("port", VNum 80)]);
                      ("_", VArr []) ]).
Proof. repeat split. Qed.

(** What does hold for a base that is a mapping: an override that is a
    boolean, a number or a string makes the merge throw an error whose
    message names the key and the override's [typeof]; an override that is
    a mapping gives the key-by-key recursive merge: the result holds,
    under every key, the merge of the two values stored under that key,
    its keys are those of either side, and if it fails it fails with the
    error of one of the override's keys. *)
Lemma deepConfigMerge_mapping_base :
  forall (o : props) (key : string),
    (forall s, s <> VUndefined -> JS.typeof s <> "object" ->
       deepConfigMerge (VObj o) s key
       = Throw (Error ("Cannot merge " ++ key
                       ++ " into an object from type " ++ JS.typeof s)))
    /\ (forall b, wf_value (VObj o) = true -> wf_value (VObj b) = true ->
         (exists m,
             deepConfigMerge (VObj o) (VObj b) key = Return (VObj m)
             /\ (forall k,
                    deepConfigMerge (JS.member (VObj o) k)
                                    (JS.member (VObj b) k) k
                    = Return (JS.member (VObj m) k))
             /\ (forall k, JS.has_own m k = JS.has_own o k || JS.has_own b k))
         \/ (exists k e,
                In k (map fst b)
                /\ deepConfigMerge (JS.member (VObj o) k)
                                   (JS.member (VObj b) k) k = Throw e
                /\ deepConfigMerge (VObj o) (VObj b) key = Throw e)).
Proof.
  intros o key. split.
  - intros s Hs Ht. destruct s; simpl in *; congruence.
  - intros b Wo Wb.
    apply wf_object_distinct in Wo. apply wf_object_distinct in Wb.
    destruct (mergedIntoFresh_copy o Wo) as (o' & Ho' & Hcopy).
    change (deepConfigMerge (VObj o) (VObj b) key)
      with (object <- mergedIntoFresh o ;;
            fmap VObj (Lodash.baseMergeProps deepConfigMerge object b)).
    rewrite Ho'. simpl.
    pose proof (baseMergeProps_settled b
                  (proj2 (Forall_forall _ _)
                     (fun kv _ base k => deepConfigMerge_settled (snd kv) base k))
                  o') as St.
    destruct (Lodash.baseMergeProps deepConfigMerge o' b) as [m|e| |] eqn:E;
      simpl in St; try contradiction.
    + left. exists m. split; [reflexivity|]. split.
      * intros k.
        pose proof (baseMergeProps_returns b o' m Wb E k) as R.
        rewrite (proj1 (Hcopy k)) in R. exact R.
      * intros k. rewrite (baseMergeProps_keys b o' m E k).
        now rewrite (proj2 (Hcopy k)).
    + right.
      destruct (baseMergeProps_throws b o' e Wb E) as (k & Hin & Hk).
      exists k, e. split; [assumption|]. split; [|reflexivity].
      rewrite (proj1 (Hcopy k)) in Hk. exact Hk.
Qed.

Lemma deepConfigMerge_mapping_base_example :
  deepConfigMerge (VObj [("port", VNum 80)]) (VStr "x") "server"
    = Throw (Error "Cannot merge server into an object from type string")
  /\ ((exists m,
          deepConfigMerge (VObj [("port", VNum 80)])
                          (VObj [("host", VStr "h")]) "server"
          = Return (VObj m)
          /\ (forall k,
                 deepConfigMerge (JS.member (VObj [("port", VNum 80)]) k)
                                 (JS.member (VObj [("host", VStr "h")]) k) k
                 = Return (JS.member (VObj m) k))
          /\ (forall k, JS.has_own m k
                        = JS.has_own [("port", VNum 80)] k
                          || JS.has_own [("host", VStr "h")] k))
      \/ (exists k e,
             In k (map fst [("host", VStr "h")])
             /\ deepConfigMerge (JS.member (VObj [("port", VNum 80)]) k)
                                (JS.member (VObj [("host", VStr "h")]) k) k
                = Throw e
             /\ deepConfigMerge (VObj [("port", VNum 80)])
                                (VObj [("host", VStr "h")]) "server"
                = Throw e)).
Proof.
  split.
  - apply (proj1 (deepConfigMerge_mapping_base [("port", VNum 80)] "server")
             (VStr "x")); discriminate.
  - apply (proj2 (deepConfigMerge_mapping_base [("port", VNum 80)] "server")
             [("host", VStr "h")]); reflexivity.
Defined.

(** ** Resolution *)

Lemma getConfigGetter_resolve :
  forall yargsParser JSON_parse schema options process,
    getConfigGetter yargsParser JSON_parse schema options process
    = (fst (resolve yargsParser JSON_parse schema options process),
       fmap getter (snd (resolve yargsParser JSON_parse schema options process))).
Proof.
  intros. unfold getConfigGetter, bindE.
  destruct (resolve yargsParser JSON_parse schema options process)
    as [events [data|e|n|]]; simpl; rewrite ?app_nil_r; reflexivity.
Qed.

Lemma coalesce_defaults : forall options,
  JS.coalesce (defaults options) (VObj []) = defaults options.
Proof.
  intros options. unfold defaults.
  destruct (defaultsFn options) as [[]|]; reflexivity.
Qed.

(** The warning step goes through when the positionals, if there are
    any, are an array, as the tokenizer produces them. *)
Lemma warnings_array : forall cl,
  JS.isArray (JS.member cl "_") = true \/ JS.member cl "_" = VUndefined ->
  snd (warnings cl) = Return tt.
Proof.
  intros cl [H | H]; unfold warnings.
  - destruct (positive _); [|reflexivity].
    now destruct (JS.member cl "_").
  - now rewrite H.
Qed.

(** When neither [--help] nor [--print-config] is given, the resolver's
    outcome is the schema's verdict on the merged candidate. *)
Lemma resolve_plain :
  forall yargsParser JSON_parse schema options process events raw candidate,
    snd (warnings (parsedCommandLine yargsParser options process))
      = Return tt ->
    JS.truthy (JS.member (parsedCommandLine yargsParser options process)
                 "help") = false ->
    JS.truthy (JS.member (parsedCommandLine yargsParser options process)
                 "printConfig") = false ->
    rawData yargsParser JSON_parse options process = (events, Return raw) ->
    merged yargsParser options process raw = Return candidate ->
    resolve yargsParser JSON_parse schema options process
    = (fst (warnings (parsedCommandLine yargsParser options process))
         ++ events,
       schema candidate).
Proof.
  intros yp jp schema options process events raw candidate Hw Hh Hp Hr Hm.
  unfold resolve, bindE. rewrite Hw, Hh, Hr. simpl. rewrite Hm. simpl.
  rewrite Hp. destruct (schema candidate); simpl; rewrite ?app_nil_r;
    reflexivity.
Qed.

Lemma optMember_member : forall v k, JS.optMember v k = JS.member v k.
Proof. now destruct v. Qed.

Lemma merged_of_mappings : forall yp options process raw d s c candidate,
  defaults options = VObj d ->
  JS.coalesce (prefixedRaw options raw) (VObj []) = VObj s ->
  parsedCommandLine yp options process = VObj c ->
  forall r, raw = VObj r ->
  merged yp options process raw = Return candidate ->
  exists o1 o2 o3 o4,
    Lodash.baseMergeProps deepConfigMerge [] d = Return o1
    /\ Lodash.baseMergeProps deepConfigMerge o1 r = Return o2
    /\ Lodash.baseMergeProps deepConfigMerge o2 s = Return o3
    /\ Lodash.baseMergeProps deepConfigMerge o3 c = Return o4
    /\ candidate = VObj o4.
Proof.
  intros yp options process raw d s c candidate Hd Hs Hc r -> Hm.
  unfold merged in Hm. rewrite coalesce_defaults, Hd, Hs, Hc in Hm.
  simpl in Hm.
  destruct (Lodash.baseMergeProps deepConfigMerge [] d) as [o1| | |] eqn:E1;
    simpl in Hm; try discriminate.
  destruct (Lodash.baseMergeProps deepConfigMerge o1 r) as [o2| | |] eqn:E2;
    simpl in Hm; try discriminate.
  destruct (Lodash.baseMergeProps deepConfigMerge o2 s) as [o3| | |] eqn:E3;
    simpl in Hm; try discriminate.
  destruct (Lodash.baseMergeProps deepConfigMerge o3 c) as [o4| | |] eqn:E4;
    simpl in Hm; try discriminate.
  injection Hm as <-. now exists o1, o2, o3, o4.
Qed.

(** One source merged in, seen at a key where only scalars meet. *)
Lemma baseMergeProps_scalar_step : forall src acc m k,
  distinct (map fst src) = true ->
  Lodash.baseMergeProps deepConfigMerge acc src = Return m ->
  Lodash.isObject (Lodash.safeGet acc k) = false ->
  (forall v, JS.lookup src k = Some v -> scalar v = true) ->
  Lodash.safeGet m k
  = match JS.lookup src k with Some v => v | None => Lodash.safeGet acc k end
  /\ Lodash.isObject (Lodash.safeGet m k) = false.
Proof.
  intros src acc m k D H Hacc Hsc.
  pose proof (baseMergeProps_returns src acc m D H k) as R.
  unfold Lodash.safeGet at 2 in R.
  destruct (JS.lookup src k) as [v|].
  - specialize (Hsc v eq_refl).
    assert (Q : Lodash.safeGet m k = v).
    { destruct (Lodash.safeGet acc k); destruct v; simpl in *;
        try discriminate; now injection R. }
    rewrite Q. split; [reflexivity|]. now destruct v.
  - rewrite deepConfigMerge_override_undefined in R. injection R as <-.
    now split.
Qed.

(** The value the last of four sources holds under a key. *)
Lemma last_of_four : forall (d r s c : props) k,
  match JS.lookup c k with
  | Some v => v
  | None =>
      match JS.lookup s k with
      | Some v => v
      | None =>
          match JS.lookup r k with
          | Some v => v
          | None => Lodash.safeGet d k
          end
      end
  end
  = match JS.lookup c k, JS.lookup s k, JS.lookup r k, JS.lookup d k with
    | Some v, _, _, _ => v
    | None, Some v, _, _ => v
    | None, None, Some v, _ => v
    | None, None, None, Some v => v
    | None, None, None, None => VUndefined
    end.
Proof.
  intros. unfold Lodash.safeGet.
  destruct (JS.lookup c k), (JS.lookup s k), (JS.lookup r k), (JS.lookup d k);
    reflexivity.
Qed.

(** At a key where the four sources hold scalars or nothing, the
    candidate holds the value of the last source that has the key. *)
Lemma candidate_scalar_precedence :
  forall yp options process d r s c candidate k,
    defaults options = VObj d ->
    JS.coalesce (prefixedRaw options (VObj r)) (VObj []) = VObj s ->
    parsedCommandLine yp options process = VObj c ->
    distinct (map fst d) = true -> distinct (map fst r) = true ->
    distinct (map fst s) = true -> distinct (map fst c) = true ->
    (forall src v, In src [d; r; s; c] -> JS.lookup src k = Some v ->
                   scalar v = true) ->
    merged yp options process (VObj r) = Return candidate ->
    JS.member candidate k
    = match JS.lookup c k with
      | Some v => v
      | None =>
          match JS.lookup s k with
          | Some v => v
          | None =>
              match JS.lookup r k with
              | Some v => v
              | None =>
                  match JS.lookup d k with
                  | Some v => v
                  | None => VUndefined
                  end
              end
          end
      end.
Proof.
  intros yp options process d r s c candidate k Hd Hs Hc Dd Dr Ds Dc Hsc Hm.
  destruct (merged_of_mappings _ _ _ _ _ _ _ _ Hd Hs Hc r eq_refl Hm)
    as (o1 & o2 & o3 & o4 & H1 & H2 & H3 & H4 & ->).
  destruct (baseMergeProps_scalar_step d [] o1 k Dd H1 eq_refl) as [Q1 I1].
  { intros v. apply (Hsc d). now left. }
  destruct (baseMergeProps_scalar_step r o1 o2 k Dr H2 I1) as [Q2 I2].
  { intros v. apply (Hsc r). right; now left. }
  destruct (baseMergeProps_scalar_step s o2 o3 k Ds H3 I2) as [Q3 I3].
  { intros v. apply (Hsc s). right; right; now left. }
  destruct (baseMergeProps_scalar_step c o3 o4 k Dc H4 I3) as [Q4 _].
  { intros v. apply (Hsc c). right; right; right; now left. }
  change (JS.member (VObj o4) k) with (Lodash.safeGet o4 k).
  rewrite Q4, Q3, Q2, Q1.
  change (Lodash.safeGet [] k) with VUndefined.
  reflexivity.
Qed.

(** C1: folding the four sources in order, each later source overrides
    what the earlier ones have accumulated wherever scalars meet: at a key
    under which every source (a well-formed mapping) holds a boolean, a
    number, a string or nothing, the candidate holds the value of the
    command line if it has the key, else that of the prefixed sub-tree,
    else that of the JSON file, else that of the defaults.  In the
    example, with defaults [{a:1, b:1}], a JSON file holding [{a:2}] and a
    command line parsed to [{a:3}], the candidate has [a = 3] and
    [b = 1]; the resolver's outcome is the schema's verdict on that
    candidate, and a validated configuration that keeps [a] and [b] is
    read back by the accessor as 3 and 1. *)
Theorem C1_precedence_defaults_file_command_line :
  (forall yargsParser options process d r s c candidate k,
      defaults options = VObj d ->
      JS.coalesce (prefixedRaw options (VObj r)) (VObj []) = VObj s ->
      parsedCommandLine yargsParser options process = VObj c ->
      wf_value (VObj d) = true -> wf_value (VObj r) = true ->
      wf_value (VObj s) = true -> wf_value (VObj c) = true ->
      (forall src v, In src [d; r; s; c] -> JS.lookup src k = Some v ->
                     scalar v = true) ->
      merged yargsParser options process (VObj r) = Return candidate ->
      JS.member candidate k
      = match JS.lookup c k with
        | Some v => v
        | None =>
            match JS.lookup s k with
            | Some v => v
            | None =>
                match JS.lookup r k with
                | Some v => v
                | None =>
                    match JS.lookup d k with
                    | Some v => v
                    | None => VUndefined
                    end
                end
            end
        end)
  /\ (forall yargsParser JSON_parse schema options process events,
        prefix options = None ->
        defaultsFn options = Some (VObj [("a", VNum 1); ("b", VNum 1)]) ->
        rawData yargsParser JSON_parse options process
          = (events, Return (VObj [("a", VNum 2)])) ->
        parsedCommandLine yargsParser options process
          = VObj [("_", VArr []); ("a", VNum 3)] ->
        exists candidate,
          merged yargsParser options process (VObj [("a", VNum 2)])
            = Return candidate
          /\ JS.member candidate "a" = VNum 3
          /\ JS.member candidate "b" = VNum 1
          /\ getConfigGetter yargsParser JSON_parse schema options process
             = (events, fmap getter (schema candidate))
          /\ (forall data,
                 schema candidate = Return data ->
                 JS.member data "a" = JS.member candidate "a" ->
                 JS.member data "b" = JS.member candidate "b" ->
                 getter data "a" None = Return (VNum 3)
                 /\ getter data "b" None = Return (VNum 1))).
Proof.
  split.
  - intros yp options process d r s c candidate k Hd Hs Hc Wd Wr Ws Wc.
    apply (candidate_scalar_precedence yp options process d r s c candidate k
             Hd Hs Hc);
      now apply wf_object_distinct.
  - intros yp jp schema options process events Hpre Hdef Hraw Hcl.
    assert (Hm : merged yp options process (VObj [("a", VNum 2)])
                 = Return (VObj [("a", VNum 3); ("b", VNum 1);
                                 ("_", VArr [])])).
    { unfold merged, defaults, prefixedRaw. rewrite Hpre, Hdef, Hcl.
      reflexivity. }
    eexists. split; [exact Hm|]. split; [reflexivity|]. split; [reflexivity|].
    split.
    + rewrite getConfigGetter_resolve.
      erewrite resolve_plain;
        [|rewrite Hcl; reflexivity..|exact Hraw|exact Hm].
      rewrite Hcl. reflexivity.
    + intros data _ Ha Hb. unfold getter, walk. simpl.
      rewrite !optMember_member, Ha, Hb. split; reflexivity.
Qed.

Lemma C1_precedence_witness :
  (JS.member
     (VObj [ ("level", VStr "cli"); ("name", VStr "file");
             ("port", VNum 80); ("_", VArr []) ]) "level" = VStr "cli"
   /\ JS.member
        (VObj [ ("level", VStr "cli"); ("name", VStr "file");
                ("port", VNum 80); ("_", VArr []) ]) "name" = VStr "file"
   /\ JS.member
        (VObj [ ("level", VStr "cli"); ("name", VStr "file");
                ("port", VNum 80); ("_", VArr []) ]) "port" = VNum 80)
  /\ exists candidate,
       merged (Sample.tokenizer (VObj [("_", VArr []); ("a", VNum 3)]))
         (Sample.options None (Some (VObj [("a", VNum 1); ("b", VNum 1)])))
         (Sample.process ["--a"; "3"]
            (Sample.oneFile "./config.json" Sample.text_a2))
         Sample.json_a2
       = Return candidate
       /\ JS.member candidate "a" = VNum 3
       /\ JS.member candidate "b" = VNum 1
       /\ getConfigGetter
            (Sample.tokenizer (VObj [("_", VArr []); ("a", VNum 3)]))
            (Sample.reader Sample.text_a2 Sample.json_a2)
            (Sample.numberFields ["a"; "b"])
            (Sample.options None (Some (VObj [("a", VNum 1); ("b", VNum 1)])))
            (Sample.process ["--a"; "3"]
               (Sample.oneFile "./config.json" Sample.text_a2))
          = ([FsExistsSync (VStr "./config.json");
              FsReadFileSync (VStr "./config.json")],
             fmap getter (Sample.numberFields ["a"; "b"] candidate))
       /\ (forall data,
              Sample.numberFields ["a"; "b"] candidate = Return data ->
              JS.member data "a" = JS.member candidate "a" ->
              JS.member data "b" = JS.member candidate "b" ->
              getter data "a" None = Return (VNum 3)
              /\ getter data "b" None = Return (VNum 1)).
Proof.
  pose proof (proj1 C1_precedence_defaults_file_command_line
                (Sample.tokenizer (VObj [("_", VArr []); ("level", VStr "cli")]))
                (Sample.options None
                   (Some (VObj [ ("level", VStr "default");
                                 ("name", VStr "default");
                                 ("port", VNum 80) ])))
                (Sample.process ["--level"; "cli"] Sample.noFiles)
                [ ("level", VStr "default"); ("name", VStr "default");
                  ("port", VNum 80) ]
                [ ("level", VStr "file"); ("name", VStr "file") ]
                []
                [ ("_", VArr []); ("level", VStr "cli") ]
                (VObj [ ("level", VStr "cli"); ("name", VStr "file");
                        ("port", VNum 80); ("_", VArr []) ])) as G.
  assert (Hsc : forall k, k = "level" \/ k = "name" \/ k = "port" ->
            forall src v,
              In src [ [ ("level", VStr "default"); ("name", VStr "default");
                         ("port", VNum 80) ];
                       [ ("level", VStr "file"); ("name", VStr "file") ];
                       [];
                       [ ("_", VArr []); ("level", VStr "cli") ] ] ->
              JS.lookup src k = Some v -> scalar v = true).
  { intros k Hk src v Hin Hl.
    destruct Hk as [-> | [-> | ->]];
      destruct Hin as [<- | [<- | [<- | [<- | []]]]]; simpl in Hl;
      try discriminate; now injection Hl as <-. }
  split; [split; [|split]|].
  - apply (G "level"); try reflexivity. apply Hsc. now left.
  - apply (G "name"); try reflexivity. apply Hsc. right; now left.
  - apply (G "port"); try reflexivity. apply Hsc. right; now right.
  - apply (proj2 C1_precedence_defaults_file_command_line
             (Sample.tokenizer (VObj [("_", VArr []); ("a", VNum 3)]))
             (Sample.reader Sample.text_a2 Sample.json_a2)
             (Sample.numberFields ["a"; "b"])
             (Sample.options None (Some (VObj [("a", VNum 1); ("b", VNum 1)])))
             (Sample.process ["--a"; "3"]
                (Sample.oneFile "./config.json" Sample.text_a2)));
      reflexivity.
Defined.

(** C4: the prefixed sub-tree is folded in after the whole file content,
    so it wins over the file's root wherever scalars meet: when the walk
    along a non-empty prefix ends at a mapping that holds a boolean, a
    number or a string under a key, the defaults and the file's root hold
    a scalar or nothing under that key and the command line does not have
    the key (all sources well-formed mappings), the candidate holds the
    sub-tree's value.  In the example, with a JSON file holding
    [{apps:{x:{v:1}}, v:2}] and the prefix [apps.x], the sub-tree is
    [{v:1}], the candidate has [v = 1], and a validated configuration that
    keeps [v] is read back by the accessor as 1. *)
Theorem C4_prefixed_subtree_overrides_root_key :
  (forall yargsParser options process p d r s c candidate k v,
      prefix options = Some p -> p <> "" ->
      walk (JS.split "." p) (VObj r) = VObj s ->
      defaults options = VObj d ->
      parsedCommandLine yargsParser options process = VObj c ->
      wf_value (VObj d) = true -> wf_value (VObj r) = true ->
      wf_value (VObj s) = true -> wf_value (VObj c) = true ->
      JS.lookup s k = Some v -> scalar v = true ->
      (forall src w, In src [d; r] -> JS.lookup src k = Some w ->
                     scalar w = true) ->
      JS.lookup c k = None ->
      merged yargsParser options process (VObj r) = Return candidate ->
      prefixedRaw options (VObj r) = VObj s
      /\ JS.member candidate k = v)
  /\ (forall yargsParser JSON_parse schema options process events,
        prefix options = Some "apps.x" ->
        defaultsFn options = None ->
        rawData yargsParser JSON_parse options process
          = (events, Return Sample.json_apps) ->
        parsedCommandLine yargsParser options process
          = VObj [("_", VArr [])] ->
        exists candidate,
          prefixedRaw options Sample.json_apps = VObj [("v", VNum 1)]
          /\ merged yargsParser options process Sample.json_apps
             = Return candidate
          /\ JS.member candidate "v" = VNum 1
          /\ getConfigGetter yargsParser JSON_parse schema options process
             = (events, fmap getter (schema candidate))
          /\ (forall data,
                 schema candidate = Return data ->
                 JS.member data "v" = JS.member candidate "v" ->
                 getter data "v" None = Return (VNum 1))).
Proof.
  split.
  - intros yp options process p d r s c candidate k v
      Hpre Hne Hwalk Hd Hc Wd Wr Ws Wc Hs Hv Hsc Hck Hm.
    assert (Hp : prefixedRaw options (VObj r) = VObj s).
    { unfold prefixedRaw. rewrite Hpre. unfold JS.and. simpl.
      apply String.eqb_neq in Hne. now rewrite Hne. }
    split; [exact Hp|].
    assert (Hs' : JS.coalesce (prefixedRaw options (VObj r)) (VObj [])
                  = VObj s) by (now rewrite Hp).
    assert (Hall : forall src w, In src [d; r; s; c] ->
              JS.lookup src k = Some w -> scalar w = true).
    { intros src w [<- | [<- | [<- | [<- | []]]]] Hl.
      - apply (Hsc d w); [now left|exact Hl].
      - apply (Hsc r w); [right; now left|exact Hl].
      - rewrite Hs in Hl. now injection Hl as <-.
      - rewrite Hck in Hl. discriminate. }
    rewrite (candidate_scalar_precedence yp options process
               d r s c candidate k Hd Hs' Hc
               (wf_object_distinct _ Wd) (wf_object_distinct _ Wr)
               (wf_object_distinct _ Ws) (wf_object_distinct _ Wc) Hall Hm).
    now rewrite Hck, Hs.
  - intros yp jp schema options process events Hpre Hdef Hraw Hcl.
    assert (Hp : prefixedRaw options Sample.json_apps = VObj [("v", VNum 1)]).
    { unfold prefixedRaw. rewrite Hpre. reflexivity. }
    assert (Hm : merged yp options process Sample.json_apps
                 = Return (VObj [ ("apps", VObj [("x", VObj [("v", VNum 1)])]);
                                  ("v", VNum 1); ("_", VArr []) ])).
    { unfold merged. rewrite Hp. unfold defaults. rewrite Hdef, Hcl.
      reflexivity. }
    eexists. split; [exact Hp|]. split; [exact Hm|]. split; [reflexivity|].
    split.
    + rewrite getConfigGetter_resolve.
      erewrite resolve_plain;
        [|rewrite Hcl; reflexivity..|exact Hraw|exact Hm].
      rewrite Hcl. reflexivity.
    + intros data _ Hv. unfold getter, walk. simpl.
      rewrite optMember_member, Hv. reflexivity.
Qed.

Lemma C4_prefixed_subtree_witness :
  (prefixedRaw (Sample.options (Some "apps.x") (Some (VObj [("level", VStr "d")])))
     (VObj [ ("apps", VObj [("x", VObj [("level", VStr "x")])]);
             ("level", VStr "root") ])
   = VObj [("level", VStr "x")]
   /\ JS.member
        (VObj [ ("level", VStr "x");
                ("apps", VObj [("x", VObj [("level", VStr "x")])]);
                ("_", VArr []) ]) "level"
      = VStr "x")
  /\ exists candidate,
       prefixedRaw (Sample.options (Some "apps.x") None) Sample.json_apps
         = VObj [("v", VNum 1)]
       /\ merged (Sample.tokenizer (VObj [("_", VArr [])]))
            (Sample.options (Some "apps.x") None)
            (Sample.process []
               (Sample.oneFile "./config.json" Sample.text_apps))
            Sample.json_apps
          = Return candidate
       /\ JS.member candidate "v" = VNum 1
       /\ getConfigGetter (Sample.tokenizer (VObj [("_", VArr [])]))
            (Sample.reader Sample.text_apps Sample.json_apps)
            (Sample.numberFields ["v"])
            (Sample.options (Some "apps.x") None)
            (Sample.process []
               (Sample.oneFile "./config.json" Sample.text_apps))
          = ([FsExistsSync (VStr "./config.json");
              FsReadFileSync (VStr "./config.json")],
             fmap getter (Sample.numberFields ["v"] candidate))
       /\ (forall data,
              Sample.numberFields ["v"] candidate = Return data ->
              JS.member data "v" = JS.member candidate "v" ->
              getter data "v" None = Return (VNum 1)).
Proof.
  split.
  - apply (proj1 C4_prefixed_subtree_overrides_root_key
             (Sample.tokenizer (VObj [("_", VArr [])]))
             (Sample.options (Some "apps.x") (Some (VObj [("level", VStr "d")])))
             (Sample.process [] Sample.noFiles)
             "apps.x"
             [("level", VStr "d")]
             [ ("apps", VObj [("x", VObj [("level", VStr "x")])]);
               ("level", VStr "root") ]
             [("level", VStr "x")]
             [("_", VArr [])]
             (VObj [ ("level", VStr "x");
                     ("apps", VObj [("x", VObj [("level", VStr "x")])]);
                     ("_", VArr []) ])
             "level" (VStr "x"));
      try reflexivity; try discriminate.
    intros src w [<- | [<- | []]] Hl; simpl in Hl; try discriminate;
      now injection Hl as <-.
  - apply (proj2 C4_prefixed_subtree_overrides_root_key
             (Sample.tokenizer (VObj [("_", VArr [])]))
             (Sample.reader Sample.text_apps Sample.json_apps)
             (Sample.numberFields ["v"])
             (Sample.options (Some "apps.x") None)
             (Sample.process []
                (Sample.oneFile "./config.json" Sample.text_apps)));
      reflexivity.
Defined.

(** A source that is the empty mapping contributes nothing. *)
Lemma mergeWith_empty_source : forall customizer before after object,
  Lodash.mergeWith customizer object (before ++ VObj [] :: after)
  = Lodash.mergeWith customizer object (before ++ after).
Proof.
  intros customizer before after.
  induction before as [|s before IH]; intros object; simpl.
  - reflexivity.
  - destruct (if JS.truthy s then Lodash.baseMerge customizer object s
              else Return object); simpl; auto.
Qed.

(** So does a source that is falsy. *)
Lemma mergeWith_falsy_source : forall customizer before source after object,
  JS.truthy source = false ->
  Lodash.mergeWith customizer object (before ++ source :: after)
  = Lodash.mergeWith customizer object (before ++ after).
Proof.
  intros customizer before source after object H. revert object.
  induction before as [|s before IH]; intros object; simpl.
  - now rewrite H.
  - destruct (if JS.truthy s then Lodash.baseMerge customizer object s
              else Return object); simpl; auto.
Qed.

(** C5 as stated fails: in [{a: [{v: 1}]}] the intermediate segment [a] is
    an array, not a mapping, yet the prefix [a.0] resolves to the array's
    element [{v: 1}], which is then merged into the candidate. *)
Lemma C5_counterexample :
  prefixedRaw (Sample.options (Some "a.0") None) Sample.json_list
    = VObj [("v", VNum 1)]
  /\ merged (Sample.tokenizer (VObj [("_", VArr [])]))
       (Sample.options (Some "a.0") None)
       (Sample.process [] (Sample.oneFile "./config.json" Sample.text_list))
       Sample.json_list
     = Return (VObj [ ("a", VArr [VObj [("v", VNum 1)]]);
                      ("v", VNum 1); ("_", VArr []) ]).
Proof. split; reflexivity. Qed.

(** C5, amended: for a non-empty prefix the resolver splits it on [.] and
    walks the raw data one segment at a time by property access.  The
    result is [undefined] as soon as one segment finds no property, and in
    particular when an intermediate value is [null] or [undefined]; nothing
    is thrown.  A result that is [undefined] or [null] contributes the
    empty mapping: the candidate is the merge of the other three sources. *)
Theorem C5_prefix_resolution_amended :
  forall yargsParser options process raw p,
    prefix options = Some p -> p <> "" ->
    prefixedRaw options raw = walk (JS.split "." p) raw
    /\ (forall segment segments root,
           walk (segment :: segments) root
           = walk segments (JS.optMember root segment))
    /\ (forall pre segment post,
           JS.split "." p = pre ++ segment :: post ->
           JS.optMember (walk pre raw) segment = VUndefined ->
           prefixedRaw options raw = VUndefined)
    /\ (forall pre segment post,
           JS.split "." p = pre ++ segment :: post ->
           JS.nullish (walk pre raw) = true ->
           prefixedRaw options raw = VUndefined)
    /\ (JS.nullish (prefixedRaw options raw) = true ->
        JS.coalesce (prefixedRaw options raw) (VObj []) = VObj []
        /\ merged yargsParser options process raw
           = fmap VObj
               (Lodash.mergeWith deepConfigMerge []
                  [ defaults options; raw;
                    parsedCommandLine yargsParser options process ])).
Proof.
  intros yp options process raw p Hpre Hp.
  assert (Hw : prefixedRaw options raw = walk (JS.split "." p) raw).
  { unfold prefixedRaw. rewrite Hpre. unfold JS.and. simpl.
    apply String.eqb_neq in Hp. now rewrite Hp. }
  assert (Hstep : forall pre segment post,
             JS.split "." p = pre ++ segment :: post ->
             JS.optMember (walk pre raw) segment = VUndefined ->
             prefixedRaw options raw = VUndefined).
  { intros pre segment post Hs Hu.
    rewrite Hw, Hs, walk_app. simpl. rewrite Hu. apply walk_undefined. }
  split; [exact Hw|]. split; [reflexivity|]. split; [exact Hstep|]. split.
  - intros pre segment post Hs Hn. apply (Hstep pre segment post Hs).
    unfold JS.optMember. now rewrite Hn.
  - intros Hn.
    assert (Hc : JS.coalesce (prefixedRaw options raw) (VObj []) = VObj []).
    { unfold JS.coalesce. now rewrite Hn. }
    split; [exact Hc|].
    unfold merged. rewrite Hc, coalesce_defaults.
    exact (f_equal (fmap VObj)
             (mergeWith_empty_source deepConfigMerge [defaults options; raw]
                [parsedCommandLine yp options process] [])).
Qed.

Lemma C5_prefix_resolution_witness :
  prefixedRaw (Sample.options (Some "apps.y.z") None) Sample.json_apps
    = VUndefined
  /\ merged (Sample.tokenizer (VObj [("_", VArr [])]))
       (Sample.options (Some "apps.y.z") None)
       (Sample.process [] Sample.noFiles) Sample.json_apps
     = fmap VObj
         (Lodash.mergeWith deepConfigMerge []
            [ defaults (Sample.options (Some "apps.y.z") None);
              Sample.json_apps;
              parsedCommandLine (Sample.tokenizer (VObj [("_", VArr [])]))
                (Sample.options (Some "apps.y.z") None)
                (Sample.process [] Sample.noFiles) ]).
Proof.
  pose proof (C5_prefix_resolution_amended
                (Sample.tokenizer (VObj [("_", VArr [])]))
                (Sample.options (Some "apps.y.z") None)
                (Sample.process [] Sample.noFiles)
                Sample.json_apps "apps.y.z" eq_refl) as T.
  destruct T as (_ & _ & Hmissing & _ & Hempty); [discriminate|].
  split.
  - apply (Hmissing ["apps"] "y" ["z"]); reflexivity.
  - apply Hempty. reflexivity.
Defined.

(** ** The JSON file *)

Lemma or_truthy : forall a b, JS.truthy a = true -> JS.or a b = a.
Proof. intros a b H. unfold JS.or. now rewrite H. Qed.

Lemma or_falsy : forall a b, JS.truthy a = false -> JS.or a b = b.
Proof. intros a b H. unfold JS.or. now rewrite H. Qed.

(** C6: the path of the JSON file is the first of: the command line's
    [configJsonFile] value, the [CONFIG_JSON_FILE] environment variable,
    the [jsonFile] option when it is a string, and [./config.json], where
    a candidate counts when it is truthy (an empty string does not).  With
    the JSON file enabled, the file at that path is the one read; with
    [jsonFile: false] the file system is not touched and the raw data are
    the empty mapping, whatever the command line and environment say. *)
Theorem C6_json_file_path_resolution :
  forall yargsParser JSON_parse options process,
    let fromCommandLine :=
      JS.member (parsedCommandLine yargsParser options process)
        "configJsonFile" in
    let path := configJsonFile yargsParser options process in
    (JS.truthy fromCommandLine = true -> path = fromCommandLine)
    /\ (JS.truthy fromCommandLine = false ->
        forall e, env_CONFIG_JSON_FILE process = Some e -> e <> "" ->
          path = VStr e)
    /\ (JS.truthy fromCommandLine = false ->
        env_CONFIG_JSON_FILE process = None
        \/ env_CONFIG_JSON_FILE process = Some "" ->
        forall p, optionsJsonFile options = JsonFilePath p -> p <> "" ->
          path = VStr p)
    /\ (JS.truthy fromCommandLine = false ->
        env_CONFIG_JSON_FILE process = None
        \/ env_CONFIG_JSON_FILE process = Some "" ->
        forall b, optionsJsonFile options = JsonFileFlag b ->
          path = VStr "./config.json")
    /\ (jsonFileEnabled options = true ->
        forall p content, path = VStr p -> files process p = Some content ->
          rawData yargsParser JSON_parse options process
          = ([FsExistsSync (VStr p); FsReadFileSync (VStr p)],
             JSON_parse content))
    /\ (optionsJsonFile options = JsonFileFlag false ->
        rawData yargsParser JSON_parse options process
        = ([], Return (VObj []))).
Proof.
  intros yp jp options process fromCommandLine path.
  unfold path, configJsonFile. fold fromCommandLine.
  repeat split.
  - intros Hc. repeat rewrite (or_truthy fromCommandLine) by assumption.
    reflexivity.
  - intros Hc e He Hne. rewrite He, (or_falsy fromCommandLine) by assumption.
    apply String.eqb_neq in Hne.
    repeat rewrite (or_truthy (VStr e)) by (simpl; now rewrite Hne).
    reflexivity.
  - intros Hc He p Hp Hne. rewrite Hp, (or_falsy fromCommandLine) by assumption.
    apply String.eqb_neq in Hne.
    destruct He as [-> | ->]; unfold JS.or; simpl; rewrite Hne; reflexivity.
  - intros Hc He b Hb. rewrite Hb, (or_falsy fromCommandLine) by assumption.
    destruct He as [-> | ->]; reflexivity.
  - intros Hen p content Hp Hf. unfold rawData. rewrite Hen.
    fold fromCommandLine in Hp. unfold configJsonFile.
    fold fromCommandLine. rewrite Hp.
    unfold bindE, existsSync, readFileSync. simpl. rewrite Hf. reflexivity.
  - intros Hoff. unfold rawData, jsonFileEnabled. now rewrite Hoff.
Qed.

Lemma C6_json_file_path_witness :
  let tokens := Sample.tokenizer
                  (VObj [("_", VArr []); ("configJsonFile", VStr "cli.json")]) in
  let none := Sample.tokenizer (VObj [("_", VArr [])]) in
  let fs := Sample.oneFile "cli.json" Sample.text_a2 in
  let rd := Sample.reader Sample.text_a2 Sample.json_a2 in
  let withEnv :=
    {| argv := ["node"; "app.js"];
       env_CONFIG_JSON_FILE := Some "env.json"; files := fs |} in
  let path p :=
    {| prefix := None; jsonFile := Some (JsonFilePath p);
       commandLine := None; defaultsFn := None |} in
  let off :=
    {| prefix := None; jsonFile := Some (JsonFileFlag false);
       commandLine := None; defaultsFn := None |} in
  configJsonFile tokens (path "opt.json") withEnv = VStr "cli.json"
  /\ configJsonFile none (path "opt.json") withEnv = VStr "env.json"
  /\ configJsonFile none (path "opt.json") (Sample.process [] fs)
     = VStr "opt.json"
  /\ configJsonFile none (Sample.options None None) (Sample.process [] fs)
     = VStr "./config.json"
  /\ rawData tokens rd (path "opt.json") withEnv
     = ([FsExistsSync (VStr "cli.json"); FsReadFileSync (VStr "cli.json")],
        rd Sample.text_a2)
  /\ rawData tokens rd off withEnv = ([], Return (VObj [])).
Proof.
  intros tokens none fs rd withEnv path off.
  split; [|split; [|split; [|split; [|split]]]].
  - apply (proj1 (C6_json_file_path_resolution tokens rd (path "opt.json")
                    withEnv)).
    reflexivity.
  - apply (proj1 (proj2 (C6_json_file_path_resolution none rd
                           (path "opt.json") withEnv)));
      [reflexivity|reflexivity|discriminate].
  - apply (proj1 (proj2 (proj2 (C6_json_file_path_resolution none rd
                                  (path "opt.json") (Sample.process [] fs)))));
      [reflexivity|now left|reflexivity|discriminate].
  - apply (proj1 (proj2 (proj2 (proj2
             (C6_json_file_path_resolution none rd (Sample.options None None)
                (Sample.process [] fs))))) eq_refl (or_introl eq_refl) true).
    reflexivity.
  - apply (proj1 (proj2 (proj2 (proj2 (proj2
             (C6_json_file_path_resolution tokens rd (path "opt.json")
                withEnv))))));
      reflexivity.
  - apply (proj2 (proj2 (proj2 (proj2 (proj2
             (C6_json_file_path_resolution tokens rd off withEnv)))))).
    reflexivity.
Defined.

(** C7: with the JSON file enabled (and no [--help]), a file at the
    resolved path whose content [JSON.parse] rejects makes the resolver
    throw that [SyntaxError]; when no file exists at the resolved path the
    raw data are the empty mapping, nothing is read or parsed, and the
    outcome is the one obtained from the defaults and the command line
    alone. *)
Theorem C7_parse_error_and_missing_file :
  forall yargsParser JSON_parse schema options process,
    let cl := parsedCommandLine yargsParser options process in
    let path := configJsonFile yargsParser options process in
    jsonFileEnabled options = true ->
    snd (warnings cl) = Return tt ->
    JS.truthy (JS.member cl "help") = false ->
    (forall p content message,
        path = VStr p ->
        files process p = Some content ->
        JSON_parse content = Throw (SyntaxError message) ->
        snd (getConfigGetter yargsParser JSON_parse schema options process)
        = Throw (SyntaxError message))
    /\ ((forall p, path = VStr p -> files process p = None) ->
        rawData yargsParser JSON_parse options process
        = ([FsExistsSync path], Return (VObj []))
        /\ merged yargsParser options process (VObj [])
           = fmap VObj
               (Lodash.mergeWith deepConfigMerge [] [defaults options; cl])
        /\ snd (getConfigGetter yargsParser JSON_parse schema options process)
           = (candidate <- merged yargsParser options process (VObj []) ;;
              data <- schema candidate ;;
              if JS.truthy (JS.member cl "printConfig")
              then Exit 0%Z
              else Return (getter data))).
Proof.
  intros yp jp schema options process cl path Hen Hw Hhelp. split.
  - intros p content message Hp Hf Hj.
    rewrite getConfigGetter_resolve.
    unfold resolve, rawData, bindE, existsSync, readFileSync.
    fold cl. fold path. rewrite Hw, Hhelp, Hen, Hp. simpl.
    rewrite Hf. simpl. rewrite Hj. reflexivity.
  - intros Hno.
    assert (Hraw : rawData yp jp options process
                   = ([FsExistsSync path], Return (VObj []))).
    { unfold rawData, bindE, existsSync. fold path. rewrite Hen. simpl.
      destruct path as [| | | |p| |]; try reflexivity.
      now rewrite (Hno p eq_refl). }
    split; [exact Hraw|]. split.
    + unfold merged. fold cl. rewrite coalesce_defaults.
      assert (Hc : JS.truthy (JS.coalesce (prefixedRaw options (VObj []))
                                (VObj [])) = false
                   \/ JS.coalesce (prefixedRaw options (VObj [])) (VObj [])
                      = VObj []).
      { unfold prefixedRaw. destruct (prefix options) as [p|]; [|now right].
        unfold JS.and. simpl.
        destruct (String.eqb_spec p "") as [->|Hne]; [now left|]. simpl.
        right.
        destruct (JS.split "." p) as [|segment segments] eqn:Hs.
        - now apply split_not_nil in Hs.
        - unfold walk. simpl. fold (walk segments VUndefined).
          now rewrite walk_undefined. }
      apply f_equal.
      etransitivity;
        [exact (mergeWith_empty_source deepConfigMerge [defaults options]
                  [JS.coalesce (prefixedRaw options (VObj [])) (VObj []); cl]
                  [])|].
      destruct Hc as [Hc | Hc].
      * exact (mergeWith_falsy_source deepConfigMerge [defaults options]
                 _ [cl] [] Hc).
      * rewrite Hc.
        exact (mergeWith_empty_source deepConfigMerge [defaults options]
                 [cl] []).
    + rewrite getConfigGetter_resolve. unfold resolve, bindE. fold cl.
      rewrite Hw, Hhelp, Hraw. simpl.
      destruct (merged yp options process (VObj [])) as [m| | |]; simpl;
        try reflexivity.
      destruct (schema m) as [data| | |]; simpl; try reflexivity.
      now destruct (JS.truthy (JS.member cl "printConfig")).
Qed.

Lemma C7_parse_error_and_missing_file_witness :
  let none := Sample.tokenizer (VObj [("_", VArr []); ("a", VNum 3)]) in
  let rd := Sample.reader Sample.text_a2 Sample.json_a2 in
  let options :=
    Sample.options None (Some (VObj [("a", VNum 1); ("b", VNum 1)])) in
  snd (getConfigGetter none rd (Sample.numberFields ["a"; "b"]) options
         (Sample.process [] (Sample.oneFile "./config.json" "{oops")))
    = Throw (SyntaxError "Unexpected token")
  /\ rawData none rd options (Sample.process [] Sample.noFiles)
     = ([FsExistsSync (VStr "./config.json")], Return (VObj []))
  /\ snd (getConfigGetter none rd (Sample.numberFields ["a"; "b"]) options
            (Sample.process [] Sample.noFiles))
     = Return (getter (VObj [("a", VNum 3); ("b", VNum 1)])).
Proof.
  intros none rd options.
  split; [|split].
  - apply (proj1 (C7_parse_error_and_missing_file none rd
                    (Sample.numberFields ["a"; "b"]) options
                    (Sample.process [] (Sample.oneFile "./config.json" "{oops"))
                    eq_refl eq_refl eq_refl) "./config.json" "{oops");
      reflexivity.
  - apply (proj2 (C7_parse_error_and_missing_file none rd
                    (Sample.numberFields ["a"; "b"]) options
                    (Sample.process [] Sample.noFiles)
                    eq_refl eq_refl eq_refl)).
    reflexivity.
  - rewrite (proj2 (proj2 (proj2 (C7_parse_error_and_missing_file none rd
                    (Sample.numberFields ["a"; "b"]) options
                    (Sample.process [] Sample.noFiles)
                    eq_refl eq_refl eq_refl)
                    (fun _ _ => eq_refl)))).
    reflexivity.
Defined.

(** ** The command line as a source *)

Lemma mergeWith_last : forall customizer sources source object,
  Lodash.mergeWith customizer object (sources ++ [source])
  = (object' <- Lodash.mergeWith customizer object sources ;;
     if JS.truthy source then Lodash.baseMerge customizer object' source
     else Return object').
Proof.
  intros customizer sources source.
  induction sources as [|s sources IH]; intros object; simpl.
  - destruct (if JS.truthy source
              then Lodash.baseMerge customizer object source
              else Return object); reflexivity.
  - destruct (if JS.truthy s then Lodash.baseMerge customizer object s
              else Return object); simpl; auto.
Qed.

(** A value stored under a key stays defined through a merge. *)
Lemma baseMergeProps_keeps_defined : forall src acc m k,
  Lodash.baseMergeProps deepConfigMerge acc src = Return m ->
  Lodash.safeGet acc k <> VUndefined ->
  Lodash.safeGet m k <> VUndefined.
Proof.
  induction src as [|[k0 v0] src IH]; intros acc m k H Hd; simpl in H.
  - now injection H as <-.
  - rewrite mergeKey_deepConfigMerge in H.
    destruct (deepConfigMerge (Lodash.safeGet acc k0) v0 k0) as [r| | |] eqn:E;
      simpl in H; try discriminate.
    apply (IH _ _ _ H). rewrite safeGet_assignMergeValue.
    destruct (String.eqb_spec k0 k) as [<-|N]; [|assumption].
    destruct (JS.is_undefined r) eqn:U; [assumption|].
    now apply is_undefined_false.
Qed.

(** Every defined value of the source leaves a defined value under its
    key. *)
Lemma baseMergeProps_source_keys : forall src acc m k v,
  Lodash.baseMergeProps deepConfigMerge acc src = Return m ->
  JS.lookup src k = Some v -> v <> VUndefined ->
  Lodash.safeGet m k <> VUndefined.
Proof.
  induction src as [|[k0 v0] src IH]; intros acc m k v H Hl Hv;
    simpl in H, Hl.
  - discriminate.
  - rewrite mergeKey_deepConfigMerge in H.
    destruct (deepConfigMerge (Lodash.safeGet acc k0) v0 k0) as [r| | |] eqn:E;
      simpl in H; try discriminate.
    destruct (String.eqb_spec k0 k) as [<-|N].
    + injection Hl as ->.
      apply (baseMergeProps_keeps_defined _ _ _ _ H).
      rewrite safeGet_assignMergeValue, String.eqb_refl.
      destruct (JS.is_undefined r) eqn:U.
      * apply is_undefined_true in U. subst r.
        now destruct (deepConfigMerge_undefined_inv _ _ _ E).
      * now apply is_undefined_false.
    + now apply (IH _ _ _ _ H Hl).
Qed.

(** C10: with command-line processing enabled, the last source merged into
    the candidate is the tokenizer's whole output.  Every key under which
    that output holds a value is a key of the candidate handed to the
    schema, and a key no earlier source has arrives with the tokenizer's
    value unchanged; this goes for the positionals under [_] and for
    [configJsonFile] as for any other key.  For some inputs, then, the
    schema is handed keys that no configuration source provided. *)
Theorem C10_command_line_source_is_whole_parser_output :
  (forall yargsParser options process raw cl,
      optionsCommandLine options = true ->
      yargsParser (skipn 2 (argv process)) = VObj cl ->
      merged yargsParser options process raw
      = fmap VObj
          (earlier <- Lodash.mergeWith deepConfigMerge []
                        [ defaults options; raw;
                          JS.coalesce (prefixedRaw options raw) (VObj []) ] ;;
           Lodash.baseMergeProps deepConfigMerge earlier cl)
      /\ (forall candidate,
             merged yargsParser options process raw = Return candidate ->
             forall k v, JS.lookup cl k = Some v -> v <> VUndefined ->
               JS.member candidate k <> VUndefined)
      /\ (forall earlier candidate,
             distinct (map fst cl) = true ->
             Lodash.mergeWith deepConfigMerge []
               [ defaults options; raw;
                 JS.coalesce (prefixedRaw options raw) (VObj []) ]
             = Return earlier ->
             merged yargsParser options process raw = Return candidate ->
             forall k v, JS.lookup cl k = Some v ->
               JS.has_own earlier k = false ->
               JS.member candidate k = v))
  /\ (exists yargsParser JSON_parse options process events candidate,
         (forall schema,
             resolve yargsParser JSON_parse schema options process
             = (events, schema candidate))
         /\ defaults options = VObj [("a", VNum 1)]
         /\ rawData yargsParser JSON_parse options process
            = ([FsExistsSync (VStr "cfg.json")], Return (VObj []))
         /\ JS.member candidate "_" = VArr [VStr "stray"]
         /\ JS.member candidate "configJsonFile" = VStr "cfg.json").
Proof.
  split.
  - intros yp options process raw cl Hen Hcl.
    assert (Hm : merged yp options process raw
                 = fmap VObj
                     (earlier <- Lodash.mergeWith deepConfigMerge []
                        [ defaults options; raw;
                          JS.coalesce (prefixedRaw options raw) (VObj []) ] ;;
                      Lodash.baseMergeProps deepConfigMerge earlier cl)).
    { unfold merged, parsedCommandLine. rewrite Hen, Hcl, coalesce_defaults.
      apply f_equal.
      exact (mergeWith_last deepConfigMerge
               [ defaults options; raw;
                 JS.coalesce (prefixedRaw options raw) (VObj []) ]
               (VObj cl) []). }
    split; [exact Hm|]. split.
    + intros candidate Hc k v Hl Hv. rewrite Hm in Hc.
      destruct (Lodash.mergeWith deepConfigMerge []
                  [ defaults options; raw;
                    JS.coalesce (prefixedRaw options raw) (VObj []) ])
        as [earlier| | |]; simpl in Hc; try discriminate.
      destruct (Lodash.baseMergeProps deepConfigMerge earlier cl)
        as [m| | |] eqn:E; simpl in Hc; try discriminate.
      injection Hc as <-.
      exact (baseMergeProps_source_keys cl earlier m k v E Hl Hv).
    + intros earlier candidate D He Hc k v Hl Hk.
      rewrite Hm, He in Hc. simpl in Hc.
      destruct (Lodash.baseMergeProps deepConfigMerge earlier cl)
        as [m| | |] eqn:E; simpl in Hc; try discriminate.
      injection Hc as <-.
      pose proof (baseMergeProps_returns cl earlier m D E k) as R.
      rewrite (safeGet_no_own _ _ Hk), deepConfigMerge_base_undefined in R.
      injection R as R. change (Lodash.safeGet m k = v). rewrite <- R.
      unfold Lodash.safeGet. now rewrite Hl.
  - exists (Sample.tokenizer
              (VObj [ ("_", VArr [VStr "stray"]);
                      ("config-json-file", VStr "cfg.json");
                      ("configJsonFile", VStr "cfg.json");
                      ("a", VNum 3) ])),
           (Sample.reader Sample.text_a2 Sample.json_a2),
           (Sample.options None (Some (VObj [("a", VNum 1)]))),
           (Sample.process ["stray"; "--config-json-file"; "cfg.json";
                            "--a"; "3"] Sample.noFiles).
    exists [ConsoleWarn (VArr [VStr "stray"]); FsExistsSync (VStr "cfg.json")],
           (VObj [ ("a", VNum 3);
                   ("_", VArr [VStr "stray"]);
                   ("config-json-file", VStr "cfg.json");
                   ("configJsonFile", VStr "cfg.json") ]).
    split; [|repeat split].
    intros schema.
    etransitivity; [eapply resolve_plain; reflexivity|reflexivity].
Qed.

Lemma C10_command_line_source_witness :
  let output :=
    [ ("_", VArr [VStr "stray"]);
      ("config-json-file", VStr "cfg.json");
      ("configJsonFile", VStr "cfg.json");
      ("a", VNum 3) ] in
  let candidate :=
    VObj [ ("a", VNum 3);
           ("_", VArr [VStr "stray"]);
           ("config-json-file", VStr "cfg.json");
           ("configJsonFile", VStr "cfg.json") ] in
  merged (Sample.tokenizer (VObj output))
    (Sample.options None (Some (VObj [("a", VNum 1)])))
    (Sample.process ["stray"; "--config-json-file"; "cfg.json"; "--a"; "3"]
       Sample.noFiles)
    (VObj [])
  = Return candidate
  /\ JS.member candidate "a" <> VUndefined
  /\ JS.member candidate "_" = VArr [VStr "stray"]
  /\ JS.member candidate "configJsonFile" = VStr "cfg.json".
Proof.
  intros output candidate.
  pose proof (proj1 C10_command_line_source_is_whole_parser_output
                (Sample.tokenizer (VObj output))
                (Sample.options None (Some (VObj [("a", VNum 1)])))
                (Sample.process
                   ["stray"; "--config-json-file"; "cfg.json"; "--a"; "3"]
                   Sample.noFiles)
                (VObj []) output eq_refl eq_refl) as (_ & Hkeys & Hfresh).
  split; [reflexivity|]. split; [|split].
  - apply (Hkeys candidate eq_refl "a" (VNum 3)); [reflexivity|discriminate].
  - apply (Hfresh [("a", VNum 1)] candidate); reflexivity.
  - apply (Hfresh [("a", VNum 1)] candidate); reflexivity.
Defined.

(** * Further properties of the merge *)

(** X1: [undefined] is the identity of the merge on both sides, and it is
    the only way to get [undefined] out of it: a merge that returns
    [undefined] had [undefined] on both sides. *)
Theorem X1_undefined_is_the_identity :
  forall x key,
    deepConfigMerge x VUndefined key = Return x
    /\ deepConfigMerge VUndefined x key = Return x
    /\ (forall y, deepConfigMerge x y key = Return VUndefined ->
          x = VUndefined /\ y = VUndefined).
Proof.
  intros x key. split; [apply deepConfigMerge_override_undefined|].
  split; [apply deepConfigMerge_base_undefined|].
  intros y. apply deepConfigMerge_undefined_inv.
Qed.

Lemma X1_undefined_identity_witness :
  deepConfigMerge VUndefined VUndefined "k" = Return VUndefined
  /\ (VUndefined = VUndefined /\ VUndefined = VUndefined).
Proof.
  split; [reflexivity|].
  apply (proj2 (proj2 (X1_undefined_is_the_identity VUndefined "k"))
           VUndefined).
  reflexivity.
Defined.

(** X2: for a base that is an array, the merge returns the base followed
    by the override's elements, each element that is itself an array
    replaced by its own elements.  When no element of the override is an
    array this is plain concatenation, with the lengths adding up; an
    override that is not an array is appended as one element. *)
Theorem X2_array_base_appends :
  forall a key,
    (forall b, deepConfigMerge (VArr a) (VArr b) key
               = Return (VArr (a ++ flat_map JS.concatSpreadable b)))
    /\ (forall b, forallb (fun v => negb (JS.isArray v)) b = true ->
          deepConfigMerge (VArr a) (VArr b) key = Return (VArr (a ++ b))
          /\ List.length (a ++ b) = (List.length a + List.length b)%nat)
    /\ (forall s, s <> VUndefined -> JS.isArray s = false ->
          deepConfigMerge (VArr a) s key = Return (VArr (a ++ [s]))).
Proof.
  intros a key. split; [intros b; apply deepConfigMerge_arrays|]. split.
  - intros b H. split; [now apply deepConfigMerge_arrays_flat|].
    apply length_app.
  - intros s Hs Ha. now apply deepConfigMerge_array_scalar.
Qed.

Lemma X2_array_base_witness :
  (deepConfigMerge (VArr [VStr "a"]) (VArr [VStr "b"; VObj []]) "tags"
   = Return (VArr ([VStr "a"] ++ [VStr "b"; VObj []]))
   /\ List.length ([VStr "a"] ++ [VStr "b"; VObj []]) = (1 + 2)%nat)
  /\ deepConfigMerge (VArr [VStr "a"]) (VStr "b") "tags"
     = Return (VArr ([VStr "a"] ++ [VStr "b"])).
Proof.
  split.
  - apply (proj1 (proj2 (X2_array_base_appends [VStr "a"] "tags"))).
    reflexivity.
  - apply (proj2 (proj2 (X2_array_base_appends [VStr "a"] "tags")));
      [discriminate|reflexivity].
Defined.

(** ** The one exception of the merge *)

Lemma baseMergeProps_throw_inv : forall (P : exn -> Prop) src,
  Forall (fun kv => forall base k e,
            deepConfigMerge base (snd kv) k = Throw e -> P e) src ->
  forall acc e,
    Lodash.baseMergeProps deepConfigMerge acc src = Throw e -> P e.
Proof.
  intros P src F. induction F as [|[k v] src Hv _ IH]; intros acc e H;
    simpl in H; [discriminate|].
  rewrite mergeKey_deepConfigMerge in H.
  destruct (deepConfigMerge (Lodash.safeGet acc k) v k) as [r|e'| |] eqn:E;
    simpl in H; try discriminate.
  - exact (IH _ _ H).
  - injection H as <-. exact (Hv _ _ _ E).
Qed.

Lemma baseMergeElems_throw_inv : forall (P : exn -> Prop) src,
  Forall (fun v => forall base k e,
            deepConfigMerge base v k = Throw e -> P e) src ->
  forall acc i e,
    Lodash.baseMergeElems deepConfigMerge acc i src = Throw e -> P e.
Proof.
  intros P src F. induction F as [|v src Hv _ IH]; intros acc i e H;
    simpl in H; [discriminate|].
  rewrite mergeKey_deepConfigMerge in H.
  destruct (deepConfigMerge (Lodash.safeGet acc (JS.index_key i)) v
              (JS.index_key i)) as [r|e'| |] eqn:E;
    simpl in H; try discriminate.
  - exact (IH _ _ _ H).
  - injection H as <-. exact (Hv _ _ _ E).
Qed.

Lemma deepConfigMerge_throws_conflict : forall s base key e,
  deepConfigMerge base s key = Throw e -> merge_conflict e.
Proof.
  induction s using value_nested_ind; intros base key e Ht;
    try (destruct base; simpl in Ht; discriminate).
  - (* null *)
    destruct base as [| | | | | |a]; simpl in Ht; try discriminate.
    unfold mergedIntoFresh in Ht.
    destruct (baseMergeProps_firstBranch_returns a []) as [o' Ho'].
    rewrite Ho' in Ht. discriminate.
  - (* boolean *)
    destruct base as [| | | | | |a]; simpl in Ht; try discriminate.
    injection Ht as <-. now exists key, (VBool b).
  - (* number *)
    destruct base as [| | | | | |a]; simpl in Ht; try discriminate.
    injection Ht as <-. now exists key, (VNum n).
  - (* string *)
    destruct base as [| | | | | |a]; simpl in Ht; try discriminate.
    injection Ht as <-. now exists key, (VStr s).
  - (* array *)
    destruct base as [| | | | | |a]; simpl in Ht; try discriminate.
    unfold mergedIntoFresh in Ht.
    destruct (baseMergeProps_firstBranch_returns a []) as [o' Ho'].
    rewrite Ho' in Ht. simpl in Ht.
    destruct (Lodash.baseMergeElems deepConfigMerge o' 0 l) eqn:E;
      simpl in Ht; try discriminate.
    injection Ht as <-.
    exact (baseMergeElems_throw_inv merge_conflict l H _ _ _ E).
  - (* object *)
    destruct base as [| | | | | |a]; simpl in Ht; try discriminate.
    unfold mergedIntoFresh in Ht.
    destruct (baseMergeProps_firstBranch_returns a []) as [o' Ho'].
    rewrite Ho' in Ht. simpl in Ht.
    destruct (Lodash.baseMergeProps deepConfigMerge o' o) eqn:E;
      simpl in Ht; try discriminate.
    injection Ht as <-.
    exact (baseMergeProps_throw_inv merge_conflict o H _ _ E).
Qed.

Lemma baseMerge_throws_conflict : forall acc source e,
  Lodash.baseMerge deepConfigMerge acc source = Throw e -> merge_conflict e.
Proof.
  intros acc [| | | |s|l|o] e H; simpl in H; try discriminate.
  - refine (baseMergeElems_throw_inv merge_conflict _ _ _ _ _ H).
    apply Forall_forall. intros; eapply deepConfigMerge_throws_conflict; eauto.
  - refine (baseMergeElems_throw_inv merge_conflict _ _ _ _ _ H).
    apply Forall_forall. intros; eapply deepConfigMerge_throws_conflict; eauto.
  - refine (baseMergeProps_throw_inv merge_conflict _ _ _ _ H).
    apply Forall_forall. intros; eapply deepConfigMerge_throws_conflict; eauto.
Qed.

Lemma mergeWith_throws_conflict : forall sources acc e,
  Lodash.mergeWith deepConfigMerge acc sources = Throw e -> merge_conflict e.
Proof.
  induction sources as [|s sources IH]; intros acc e H; simpl in H;
    [discriminate|].
  destruct (JS.truthy s); simpl in H; [|exact (IH _ _ H)].
  destruct (Lodash.baseMerge deepConfigMerge acc s) eqn:E; simpl in H;
    try discriminate.
  - exact (IH _ _ H).
  - injection H as <-. exact (baseMerge_throws_conflict _ _ _ E).
Qed.

(** X3: the merge has one exception.  Whatever [deepConfigMerge] throws,
    and whatever the merge of the four sources throws, is the error
    "Cannot merge <key> into an object from type <t>" with [t] the
    [typeof] of a boolean, a number or a string; and the merge of the
    four sources always either returns an object or throws. *)
Theorem X3_merge_throws_only_conflicts :
  (forall base override key e,
      deepConfigMerge base override key = Throw e -> merge_conflict e)
  /\ (forall yargsParser options process raw e,
         merged yargsParser options process raw = Throw e ->
         merge_conflict e)
  /\ (forall yargsParser options process raw,
         (exists m, merged yargsParser options process raw = Return (VObj m))
         \/ (exists e, merged yargsParser options process raw = Throw e)).
Proof.
  split; [|split].
  - intros base override key e. apply deepConfigMerge_throws_conflict.
  - intros yp options process raw e H. unfold merged in H.
    destruct (Lodash.mergeWith deepConfigMerge [] _) eqn:E; simpl in H;
      try discriminate.
    injection H as <-. exact (mergeWith_throws_conflict _ _ _ E).
  - intros yp options process raw. unfold merged.
    pose proof (mergeWith_settled
                  [ JS.coalesce (defaults options) (VObj []); raw;
                    JS.coalesce (prefixedRaw options raw) (VObj []);
                    parsedCommandLine yp options process ] []) as S.
    destruct (Lodash.mergeWith deepConfigMerge [] _) as [m|e| |];
      simpl in *; try contradiction.
    + left. now exists m.
    + right. now exists e.
Qed.

Lemma X3_merge_conflict_witness :
  merge_conflict
    (Error "Cannot merge server into an object from type number").
Proof.
  apply (proj1 X3_merge_throws_only_conflicts
           (VObj [("port", VNum 80)]) (VNum 1) "server").
  reflexivity.
Defined.

(** ** Mappings with and without a common key *)

Lemma deepConfigMerge_objects : forall a b key,
  deepConfigMerge (VObj a) (VObj b) key
  = (object <- mergedIntoFresh a ;;
     fmap VObj (Lodash.baseMergeProps deepConfigMerge object b)).
Proof. reflexivity. Qed.

Lemma in_keys_has_own : forall o k,
  In k (map fst o) -> JS.has_own o k = true.
Proof.
  induction o as [|[k0 v0] o IH]; intros k H; simpl in H; [contradiction|].
  rewrite has_own_cons. destruct H as [->|H].
  - now rewrite String.eqb_refl.
  - rewrite (IH _ H). apply orb_true_r.
Qed.

(** X4: two well-formed mappings without a common key merge, without
    error, into their union: the result has the keys of both, and under
    each key the value it had on its side. *)
Theorem X4_disjoint_mappings_merge_to_their_union :
  forall a b key,
    wf_value (VObj a) = true -> wf_value (VObj b) = true ->
    (forall k, JS.has_own a k && JS.has_own b k = false) ->
    exists m,
      deepConfigMerge (VObj a) (VObj b) key = Return (VObj m)
      /\ (forall k, JS.has_own m k = JS.has_own a k || JS.has_own b k)
      /\ (forall k, JS.has_own a k = true ->
            JS.member (VObj m) k = JS.member (VObj a) k)
      /\ (forall k, JS.has_own b k = true ->
            JS.member (VObj m) k = JS.member (VObj b) k).
Proof.
  intros a b key Wa Wb Hdis.
  apply wf_object_distinct in Wa. apply wf_object_distinct in Wb.
  destruct (mergedIntoFresh_copy a Wa) as (a' & Ha' & Hcopy).
  rewrite deepConfigMerge_objects, Ha'. simpl.
  pose proof (baseMergeProps_settled b
                (proj2 (Forall_forall _ _)
                   (fun kv _ base k => deepConfigMerge_settled (snd kv) base k))
                a') as St.
  destruct (Lodash.baseMergeProps deepConfigMerge a' b) as [m|e| |] eqn:E;
    simpl in St; try contradiction.
  - exists m. split; [reflexivity|]. split; [|split].
    + intros k. rewrite (baseMergeProps_keys b a' m E k).
      now rewrite (proj2 (Hcopy k)).
    + intros k Hk.
      pose proof (baseMergeProps_returns b a' m Wb E k) as R.
      assert (Hb : JS.has_own b k = false).
      { specialize (Hdis k). rewrite Hk in Hdis. exact Hdis. }
      rewrite (safeGet_no_own b k Hb), deepConfigMerge_override_undefined in R.
      injection R as R. change (Lodash.safeGet m k = Lodash.safeGet a k).
      rewrite <- R. exact (proj1 (Hcopy k)).
    + intros k Hk.
      pose proof (baseMergeProps_returns b a' m Wb E k) as R.
      assert (Hna : JS.has_own a k = false).
      { specialize (Hdis k). rewrite Hk, andb_true_r in Hdis. exact Hdis. }
      rewrite (proj1 (Hcopy k)), (safeGet_no_own a k Hna),
        deepConfigMerge_base_undefined in R.
      injection R as R. exact (eq_sym R).
  - exfalso.
    destruct (baseMergeProps_throws b a' e Wb E) as (k & Hin & Hk).
    assert (Hna : JS.has_own a k = false).
    { specialize (Hdis k). rewrite (in_keys_has_own b k Hin), andb_true_r in Hdis.
      exact Hdis. }
    rewrite (proj1 (Hcopy k)), (safeGet_no_own a k Hna),
      deepConfigMerge_base_undefined in Hk.
    discriminate.
Qed.

Lemma X4_disjoint_mappings_witness :
  exists m,
    deepConfigMerge (VObj [("host", VStr "h")]) (VObj [("port", VNum 80)])
      "server"
    = Return (VObj m)
    /\ (forall k, JS.has_own m k
                  = JS.has_own [("host", VStr "h")] k
                    || JS.has_own [("port", VNum 80)] k)
    /\ (forall k, JS.has_own [("host", VStr "h")] k = true ->
          JS.member (VObj m) k = JS.member (VObj [("host", VStr "h")]) k)
    /\ (forall k, JS.has_own [("port", VNum 80)] k = true ->
          JS.member (VObj m) k = JS.member (VObj [("port", VNum 80)]) k).
Proof.
  apply (X4_disjoint_mappings_merge_to_their_union
           [("host", VStr "h")] [("port", VNum 80)] "server");
    try reflexivity.
  intros k. rewrite !has_own_cons.
  change (JS.has_own [] k) with false. rewrite !orb_false_r.
  destruct (String.eqb_spec "host" k) as [<-|N]; reflexivity.
Defined.

(** X5: the merge of two mappings is all or nothing.  If under some key
    the base holds a mapping and the override a boolean, a number or a
    string, merging the two mappings throws a merge conflict, however many
    other keys would have merged. *)
Theorem X5_one_conflicting_key_fails_the_merge :
  forall a b key k o s,
    wf_value (VObj a) = true -> wf_value (VObj b) = true ->
    JS.lookup a k = Some (VObj o) ->
    JS.lookup b k = Some s ->
    scalar s = true ->
    exists e,
      deepConfigMerge (VObj a) (VObj b) key = Throw e /\ merge_conflict e.
Proof.
  intros a b key k o s Wa Wb Ha Hb Hs.
  apply wf_object_distinct in Wa. apply wf_object_distinct in Wb.
  destruct (mergedIntoFresh_copy a Wa) as (a' & Ha' & Hcopy).
  pose proof (deepConfigMerge_settled (VObj b) (VObj a) key) as St.
  destruct (deepConfigMerge (VObj a) (VObj b) key) as [r|e| |] eqn:E;
    simpl in St; try contradiction.
  - exfalso. rewrite deepConfigMerge_objects, Ha' in E. simpl in E.
    destruct (Lodash.baseMergeProps deepConfigMerge a' b) as [m| | |] eqn:Em;
      simpl in E; try discriminate.
    pose proof (baseMergeProps_returns b a' m Wb Em k) as R.
    rewrite (proj1 (Hcopy k)) in R. unfold Lodash.safeGet at 1 2 in R.
    rewrite Ha, Hb in R. destruct s; simpl in *; discriminate.
  - exists e. split; [reflexivity|].
    exact (deepConfigMerge_throws_conflict _ _ _ _ E).
Qed.

Lemma X5_one_conflicting_key_witness :
  exists e,
    deepConfigMerge
      (VObj [("name", VStr "n"); ("server", VObj [("port", VNum 80)])])
      (VObj [("name", VStr "m"); ("server", VStr "localhost")]) "root"
    = Throw e
    /\ merge_conflict e.
Proof.
  apply (X5_one_conflicting_key_fails_the_merge
           [("name", VStr "n"); ("server", VObj [("port", VNum 80)])]
           [("name", VStr "m"); ("server", VStr "localhost")] "root"
           "server" [("port", VNum 80)] (VStr "localhost"));
    reflexivity.
Defined.

(** * Further properties of the resolution *)

(** ** The command line against the earlier sources *)

Lemma merged_command_line_last : forall yp options process raw cl,
  parsedCommandLine yp options process = VObj cl ->
  merged yp options process raw
  = fmap VObj
      (earlier <- earlierSources options raw ;;
       Lodash.baseMergeProps deepConfigMerge earlier cl).
Proof.
  intros yp options process raw cl Hcl. unfold merged, earlierSources.
  rewrite Hcl. apply f_equal.
  exact (mergeWith_last deepConfigMerge
           [ JS.coalesce (defaults options) (VObj []); raw;
             JS.coalesce (prefixedRaw options raw) (VObj []) ]
           (VObj cl) []).
Qed.

(** Under each of its keys the command line is merged into what the
    earlier sources have left there. *)
Lemma candidate_command_line_key :
  forall yp options process raw cl earlier candidate k v,
    parsedCommandLine yp options process = VObj cl ->
    distinct (map fst cl) = true ->
    earlierSources options raw = Return earlier ->
    merged yp options process raw = Return candidate ->
    JS.lookup cl k = Some v ->
    deepConfigMerge (Lodash.safeGet earlier k) v k
    = Return (JS.member candidate k).
Proof.
  intros yp options process raw cl earlier candidate k v Hcl D He Hm Hl.
  rewrite (merged_command_line_last _ _ _ _ _ Hcl), He in Hm. simpl in Hm.
  destruct (Lodash.baseMergeProps deepConfigMerge earlier cl) as [m| | |] eqn:E;
    simpl in Hm; try discriminate.
  injection Hm as <-.
  pose proof (baseMergeProps_returns cl earlier m D E k) as R.
  unfold Lodash.safeGet at 2 in R. now rewrite Hl in R.
Qed.

Lemma merged_returns_or_throws : forall yp options process raw,
  settled (merged yp options process raw).
Proof.
  intros. unfold merged. apply settled_fmap, mergeWith_settled.
Qed.

Lemma merged_throws_conflict : forall yp options process raw e,
  merged yp options process raw = Throw e -> merge_conflict e.
Proof.
  intros yp options process raw e H. unfold merged in H.
  destruct (Lodash.mergeWith deepConfigMerge [] _) eqn:E; simpl in H;
    try discriminate.
  injection H as <-. exact (mergeWith_throws_conflict _ _ _ E).
Qed.

(** X6: on a scalar the command line has the last word.  When the
    tokenizer's output holds a boolean, a number or a string under a key
    and the earlier sources (defaults, file, prefixed sub-tree) have left
    there nothing, [null] or another scalar, the candidate holds the
    command line's value under that key. *)
Theorem X6_command_line_scalar_wins :
  forall yargsParser options process raw cl earlier candidate k v,
    parsedCommandLine yargsParser options process = VObj cl ->
    distinct (map fst cl) = true ->
    earlierSources options raw = Return earlier ->
    merged yargsParser options process raw = Return candidate ->
    JS.lookup cl k = Some v ->
    scalar v = true ->
    Lodash.isObject (Lodash.safeGet earlier k) = false ->
    JS.member candidate k = v.
Proof.
  intros yp options process raw cl earlier candidate k v Hcl D He Hm Hl Hs Hx.
  pose proof (candidate_command_line_key _ _ _ _ _ _ _ _ _ Hcl D He Hm Hl) as R.
  destruct (Lodash.safeGet earlier k); destruct v; simpl in *;
    try discriminate; now injection R.
Qed.

Lemma X6_command_line_scalar_witness :
  JS.member
    (VObj [("port", VNum 9000); ("host", VStr "h"); ("_", VArr [])]) "port"
  = VNum 9000.
Proof.
  apply (X6_command_line_scalar_wins
           (Sample.tokenizer (VObj [("_", VArr []); ("port", VNum 9000)]))
           (Sample.options None
              (Some (VObj [("port", VNum 80); ("host", VStr "h")])))
           (Sample.process ["--port"; "9000"] Sample.noFiles)
           (VObj [])
           [("_", VArr []); ("port", VNum 9000)]
           [("port", VNum 80); ("host", VStr "h")]);
    reflexivity.
Defined.

(** X7: on an array the command line appends.  When the earlier sources
    have left an array under a key and the tokenizer's output holds there
    a value that is not an array, the candidate holds the array with that
    value added at its end. *)
Theorem X7_command_line_value_appends_to_array :
  forall yargsParser options process raw cl earlier candidate k a v,
    parsedCommandLine yargsParser options process = VObj cl ->
    distinct (map fst cl) = true ->
    earlierSources options raw = Return earlier ->
    merged yargsParser options process raw = Return candidate ->
    JS.lookup cl k = Some v ->
    v <> VUndefined -> JS.isArray v = false ->
    Lodash.safeGet earlier k = VArr a ->
    JS.member candidate k = VArr (a ++ [v]).
Proof.
  intros yp options process raw cl earlier candidate k a v
    Hcl D He Hm Hl Hv Ha Hx.
  pose proof (candidate_command_line_key _ _ _ _ _ _ _ _ _ Hcl D He Hm Hl) as R.
  rewrite Hx, (deepConfigMerge_array_scalar a v k Hv Ha) in R.
  now injection R.
Qed.

Lemma X7_command_line_appends_witness :
  JS.member
    (VObj [("tags", VArr [VStr "a"; VStr "b"]); ("_", VArr [])]) "tags"
  = VArr ([VStr "a"] ++ [VStr "b"]).
Proof.
  apply (X7_command_line_value_appends_to_array
           (Sample.tokenizer (VObj [("_", VArr []); ("tags", VStr "b")]))
           (Sample.options None (Some (VObj [("tags", VArr [VStr "a"])])))
           (Sample.process ["--tags"; "b"] Sample.noFiles)
           (VObj [])
           [("_", VArr []); ("tags", VStr "b")]
           [("tags", VArr [VStr "a"])]);
    try reflexivity; discriminate.
Defined.

(** X8: a scalar on the command line against a mapping from the earlier
    sources stops the resolution.  When the earlier sources have left a
    mapping under a key and the tokenizer's output holds a boolean, a
    number or a string there, no candidate is built: the merge throws a
    merge conflict. *)
Theorem X8_command_line_scalar_against_mapping_throws :
  forall yargsParser options process raw cl earlier k o v,
    parsedCommandLine yargsParser options process = VObj cl ->
    distinct (map fst cl) = true ->
    earlierSources options raw = Return earlier ->
    JS.lookup cl k = Some v ->
    scalar v = true ->
    Lodash.safeGet earlier k = VObj o ->
    exists e,
      merged yargsParser options process raw = Throw e /\ merge_conflict e.
Proof.
  intros yp options process raw cl earlier k o v Hcl D He Hl Hs Hx.
  pose proof (merged_returns_or_throws yp options process raw) as St.
  destruct (merged yp options process raw) as [candidate|e| |] eqn:Hm;
    simpl in St; try contradiction.
  - exfalso.
    pose proof (candidate_command_line_key _ _ _ _ _ _ _ _ _ Hcl D He Hm Hl)
      as R.
    rewrite Hx in R. destruct v; simpl in *; discriminate.
  - exists e. split; [reflexivity|].
    exact (merged_throws_conflict _ _ _ _ _ Hm).
Qed.

Lemma X8_command_line_conflict_witness :
  exists e,
    merged (Sample.tokenizer (VObj [("_", VArr []); ("server", VNum 1)]))
      (Sample.options None (Some (VObj [("server", VObj [("port", VNum 80)])])))
      (Sample.process ["--server"; "1"] Sample.noFiles)
      (VObj [])
    = Throw e
    /\ merge_conflict e.
Proof.
  apply (X8_command_line_scalar_against_mapping_throws
           (Sample.tokenizer (VObj [("_", VArr []); ("server", VNum 1)]))
           (Sample.options None
              (Some (VObj [("server", VObj [("port", VNum 80)])])))
           (Sample.process ["--server"; "1"] Sample.noFiles)
           (VObj [])
           [("_", VArr []); ("server", VNum 1)]
           [("server", VObj [("port", VNum 80)])]
           "server" [("port", VNum 80)] (VNum 1));
    reflexivity.
Defined.

(** ** Keys are never lost *)

Lemma baseMergeElems_keeps_defined : forall src acc i m k,
  Lodash.baseMergeElems deepConfigMerge acc i src = Return m ->
  Lodash.safeGet acc k <> VUndefined ->
  Lodash.safeGet m k <> VUndefined.
Proof.
  induction src as [|v0 src IH]; intros acc i m k H Hd; simpl in H.
  - now injection H as <-.
  - rewrite mergeKey_deepConfigMerge in H.
    destruct (deepConfigMerge (Lodash.safeGet acc (JS.index_key i)) v0
                (JS.index_key i)) as [r| | |] eqn:E;
      simpl in H; try discriminate.
    apply (IH _ _ _ _ H). rewrite safeGet_assignMergeValue.
    destruct (String.eqb_spec (JS.index_key i) k) as [<-|N]; [|assumption].
    destruct (JS.is_undefined r) eqn:U; [assumption|].
    now apply is_undefined_false.
Qed.

Lemma mergeWith_keeps_defined : forall sources acc m k,
  Lodash.mergeWith deepConfigMerge acc sources = Return m ->
  Lodash.safeGet acc k <> VUndefined ->
  Lodash.safeGet m k <> VUndefined.
Proof.
  induction sources as [|s sources IH]; intros acc m k H Hd; simpl in H.
  - now injection H as <-.
  - destruct (JS.truthy s); simpl in H; [|exact (IH _ _ _ H Hd)].
    destruct (Lodash.baseMerge deepConfigMerge acc s) as [o1| | |] eqn:E;
      simpl in H; try discriminate.
    apply (IH _ _ _ H).
    destruct s; simpl in E; try (injection E as <-; assumption).
    + exact (baseMergeElems_keeps_defined _ _ _ _ _ E Hd).
    + exact (baseMergeElems_keeps_defined _ _ _ _ _ E Hd).
    + exact (baseMergeProps_keeps_defined _ _ _ _ E Hd).
Qed.

Lemma mergeWith_source_keys : forall sources acc m src k v,
  Lodash.mergeWith deepConfigMerge acc sources = Return m ->
  In (VObj src) sources ->
  JS.lookup src k = Some v -> v <> VUndefined ->
  Lodash.safeGet m k <> VUndefined.
Proof.
  induction sources as [|s sources IH]; intros acc m src k v H Hin Hl Hv;
    simpl in H; [contradiction|].
  destruct Hin as [-> | Hin].
  - simpl in H.
    destruct (Lodash.baseMergeProps deepConfigMerge acc src) as [o1| | |] eqn:E;
      simpl in H; try discriminate.
    apply (mergeWith_keeps_defined _ _ _ _ H).
    exact (baseMergeProps_source_keys _ _ _ _ _ E Hl Hv).
  - destruct (if JS.truthy s then Lodash.baseMerge deepConfigMerge acc s
              else Return acc) as [o1| | |]; simpl in H; try discriminate.
    exact (IH _ _ _ _ _ H Hin Hl Hv).
Qed.

(** X9: no source takes a key away.  With the four sources (the
    defaults, the file's content, the prefixed sub-tree, the command line)
    well-formed, if any of them is a mapping that holds a value under a
    key, every candidate that is built holds a value under that key. *)
Theorem X9_a_key_of_any_source_reaches_the_candidate :
  forall yargsParser options process raw candidate src k v,
    (forall source,
        In source
           [ defaults options; raw; prefixedRaw options raw;
             parsedCommandLine yargsParser options process ] ->
        wf_value source = true) ->
    merged yargsParser options process raw = Return candidate ->
    In (VObj src)
       [ defaults options; raw; prefixedRaw options raw;
         parsedCommandLine yargsParser options process ] ->
    JS.lookup src k = Some v -> v <> VUndefined ->
    JS.member candidate k <> VUndefined.
Proof.
  intros yp options process raw candidate src k v _ Hm Hin Hl Hv.
  unfold merged in Hm.
  destruct (Lodash.mergeWith deepConfigMerge [] _) as [m| | |] eqn:E;
    simpl in Hm; try discriminate.
  injection Hm as <-.
  apply (mergeWith_source_keys _ _ _ src k v E); [|assumption|assumption].
  rewrite coalesce_defaults.
  destruct Hin as [H | [H | [H | [H | []]]]].
  - left. exact H.
  - right; left. exact H.
  - right; right; left. now rewrite H.
  - right; right; right; left. exact H.
Qed.

Lemma X9_a_key_of_any_source_witness :
  JS.member (VObj [("host", VStr "h"); ("_", VArr []); ("port", VNum 9000)])
    "host"
  <> VUndefined.
Proof.
  apply (X9_a_key_of_any_source_reaches_the_candidate
           (Sample.tokenizer (VObj [("_", VArr []); ("port", VNum 9000)]))
           (Sample.options None (Some (VObj [("host", VStr "h")])))
           (Sample.process ["--port"; "9000"] Sample.noFiles)
           (VObj [])
           (VObj [("host", VStr "h"); ("_", VArr []); ("port", VNum 9000)])
           [("host", VStr "h")] "host" (VStr "h"));
    [|reflexivity|now left|reflexivity|discriminate].
  intros source [<- | [<- | [<- | [<- | []]]]]; reflexivity.
Defined.

(** ** Help, print-config and errors *)

(** X10: [--help] ends the resolution before anything else happens.  With
    a truthy [help] in the tokenizer's output, [getConfigGetter] logs the
    usage text and exits with code 0: the file system is not touched,
    nothing is parsed, merged or validated.  The usage names the prefix
    when there is one, else the script, [process.argv[1]]. *)
Theorem X10_help_exits_before_anything_is_read :
  forall yargsParser JSON_parse schema options process,
    let cl := parsedCommandLine yargsParser options process in
    snd (warnings cl) = Return tt ->
    JS.truthy (JS.member cl "help") = true ->
    getConfigGetter yargsParser JSON_parse schema options process
    = (fst (warnings cl) ++ [ConsoleLogUsage (command options process)],
       Exit 0%Z)
    /\ (forall p, prefix options = Some p -> command options process = p)
    /\ (forall script,
           prefix options = None ->
           nth_error (argv process) 1 = Some script ->
           command options process = script).
Proof.
  intros yp jp schema options process cl Hw Hh. split; [|split].
  - unfold getConfigGetter, resolve, bindE. fold cl. rewrite Hw, Hh.
    reflexivity.
  - intros p Hp. unfold command. now rewrite Hp.
  - intros script Hp Hs. unfold command. now rewrite Hp, Hs.
Qed.

Lemma X10_help_witness :
  getConfigGetter
    (Sample.tokenizer (VObj [("_", VArr []); ("help", VBool true)]))
    (Sample.reader Sample.text_a2 Sample.json_a2)
    (Sample.numberFields ["a"])
    (Sample.options None None)
    (Sample.process ["--help"] (Sample.oneFile "./config.json" "{oops"))
  = ([ConsoleLogUsage "app.js"], Exit 0%Z).
Proof.
  apply (proj1 (X10_help_exits_before_anything_is_read
                  (Sample.tokenizer (VObj [("_", VArr []); ("help", VBool true)]))
                  (Sample.reader Sample.text_a2 Sample.json_a2)
                  (Sample.numberFields ["a"])
                  (Sample.options None None)
                  (Sample.process ["--help"]
                     (Sample.oneFile "./config.json" "{oops"))
                  eq_refl eq_refl)).
Defined.

(** X11: [--print-config] prints the validated configuration, not the
    merged candidate, and exits with code 0 instead of returning an
    accessor; it does so only after the candidate has passed the
    schema. *)
Theorem X11_print_config_logs_validated_data_and_exits :
  forall yargsParser JSON_parse schema options process events raw candidate
         data,
    let cl := parsedCommandLine yargsParser options process in
    snd (warnings cl) = Return tt ->
    JS.truthy (JS.member cl "help") = false ->
    JS.truthy (JS.member cl "printConfig") = true ->
    rawData yargsParser JSON_parse options process = (events, Return raw) ->
    merged yargsParser options process raw = Return candidate ->
    schema candidate = Return data ->
    getConfigGetter yargsParser JSON_parse schema options process
    = (fst (warnings cl) ++ events ++ [ConsoleLogConfig data], Exit 0%Z).
Proof.
  intros yp jp schema options process events raw candidate data cl
    Hw Hh Hp Hr Hm Hs.
  unfold getConfigGetter, resolve, bindE. fold cl.
  rewrite Hw, Hh, Hr. simpl. rewrite Hm. simpl. rewrite Hs. simpl.
  rewrite Hp. simpl. reflexivity.
Qed.

Lemma X11_print_config_witness :
  getConfigGetter
    (Sample.tokenizer
       (VObj [("_", VArr []); ("print-config", VBool true);
              ("printConfig", VBool true); ("a", VNum 3)]))
    (Sample.reader Sample.text_a2 Sample.json_a2)
    (Sample.numberFields ["a"])
    (Sample.options None None)
    (Sample.process ["--print-config"; "--a"; "3"]
       (Sample.oneFile "./config.json" Sample.text_a2))
  = ([FsExistsSync (VStr "./config.json");
      FsReadFileSync (VStr "./config.json");
      ConsoleLogConfig (VObj [("a", VNum 3)])],
     Exit 0%Z).
Proof.
  apply (X11_print_config_logs_validated_data_and_exits
           (Sample.tokenizer
              (VObj [("_", VArr []); ("print-config", VBool true);
                     ("printConfig", VBool true); ("a", VNum 3)]))
           (Sample.reader Sample.text_a2 Sample.json_a2)
           (Sample.numberFields ["a"])
           (Sample.options None None)
           (Sample.process ["--print-config"; "--a"; "3"]
              (Sample.oneFile "./config.json" Sample.text_a2))
           [FsExistsSync (VStr "./config.json");
            FsReadFileSync (VStr "./config.json")]
           Sample.json_a2
           (VObj [("a", VNum 3); ("_", VArr []);
                  ("print-config", VBool true); ("printConfig", VBool true)])
           (VObj [("a", VNum 3)]));
    reflexivity.
Defined.

(** X12: errors of the merge and of the schema are not swallowed.  Once
    the raw data are read, a merge that throws makes [getConfigGetter]
    throw the same error without consulting the schema, and a schema that
    rejects the candidate makes it throw the schema's error; in both cases
    no accessor is returned and nothing is printed, [--print-config] or
    not. *)
Theorem X12_merge_and_schema_errors_propagate :
  forall yargsParser JSON_parse schema options process events raw,
    let cl := parsedCommandLine yargsParser options process in
    snd (warnings cl) = Return tt ->
    JS.truthy (JS.member cl "help") = false ->
    rawData yargsParser JSON_parse options process = (events, Return raw) ->
    (forall e,
        merged yargsParser options process raw = Throw e ->
        getConfigGetter yargsParser JSON_parse schema options process
        = (fst (warnings cl) ++ events, Throw e))
    /\ (forall candidate e,
           merged yargsParser options process raw = Return candidate ->
           schema candidate = Throw e ->
           getConfigGetter yargsParser JSON_parse schema options process
           = (fst (warnings cl) ++ events, Throw e)).
Proof.
  intros yp jp schema options process events raw cl Hw Hh Hr. split.
  - intros e Hm. unfold getConfigGetter, resolve, bindE. fold cl.
    rewrite Hw, Hh, Hr. simpl. rewrite Hm. simpl.
    now rewrite !app_nil_r.
  - intros candidate e Hm Hs. unfold getConfigGetter, resolve, bindE. fold cl.
    rewrite Hw, Hh, Hr. simpl. rewrite Hm. simpl. rewrite Hs. simpl.
    now rewrite !app_nil_r.
Qed.

Lemma X12_errors_propagate_witness :
  getConfigGetter
    (Sample.tokenizer (VObj [("_", VArr []); ("server", VNum 1)]))
    (Sample.reader Sample.text_a2 Sample.json_a2)
    (Sample.numberFields ["a"])
    (Sample.options None (Some (VObj [("server", VObj [("port", VNum 80)])])))
    (Sample.process ["--server"; "1"] Sample.noFiles)
  = ([FsExistsSync (VStr "./config.json")],
     Throw (Error "Cannot merge server into an object from type number"))
  /\ getConfigGetter
       (Sample.tokenizer
          (VObj [("_", VArr []); ("printConfig", VBool true)]))
       (Sample.reader Sample.text_a2 Sample.json_a2)
       (Sample.numberFields ["a"])
       (Sample.options None None)
       (Sample.process ["--print-config"] Sample.noFiles)
     = ([FsExistsSync (VStr "./config.json")],
        Throw (ZodError "Expected number")).
Proof.
  split.
  - apply (proj1 (X12_merge_and_schema_errors_propagate
                    (Sample.tokenizer (VObj [("_", VArr []); ("server", VNum 1)]))
                    (Sample.reader Sample.text_a2 Sample.json_a2)
                    (Sample.numberFields ["a"])
                    (Sample.options None
                       (Some (VObj [("server", VObj [("port", VNum 80)])])))
                    (Sample.process ["--server"; "1"] Sample.noFiles)
                    [FsExistsSync (VStr "./config.json")] (VObj [])
                    eq_refl eq_refl eq_refl)).
    reflexivity.
  - apply (proj2 (X12_merge_and_schema_errors_propagate
                    (Sample.tokenizer
                       (VObj [("_", VArr []); ("printConfig", VBool true)]))
                    (Sample.reader Sample.text_a2 Sample.json_a2)
                    (Sample.numberFields ["a"])
                    (Sample.options None None)
                    (Sample.process ["--print-config"] Sample.noFiles)
                    [FsExistsSync (VStr "./config.json")] (VObj [])
                    eq_refl eq_refl eq_refl)
             (VObj [("_", VArr []); ("printConfig", VBool true)]));
      reflexivity.
Defined.

(** ** Command-line processing switched off *)

(** X13: with [commandLine: false] the process arguments play no part.
    The tokenizer's output is replaced by the empty mapping, so the
    outcome and the side effects of [getConfigGetter] are the same for
    every tokenizer and every argument vector; in particular there is no
    warning, [--help] and [--print-config] are not honoured, and the file
    path comes from the environment, the option or the default. *)
Theorem X13_command_line_disabled_ignores_arguments :
  forall yargsParser yargsParser' JSON_parse schema options process args,
    commandLine options = Some false ->
    parsedCommandLine yargsParser options process = VObj []
    /\ configJsonFile yargsParser options process
       = JS.or (JS.or
           (match env_CONFIG_JSON_FILE process with
            | Some e => VStr e
            | None => VUndefined
            end)
           (match optionsJsonFile options with
            | JsonFilePath q => VStr q
            | JsonFileFlag _ => VNull
            end))
           (VStr "./config.json")
    /\ getConfigGetter yargsParser JSON_parse schema options process
       = getConfigGetter yargsParser' JSON_parse schema options
           (withArgv process args)
    /\ (forall event,
           In event
              (fst (getConfigGetter yargsParser JSON_parse schema options
                      process)) ->
           exists path, event = FsExistsSync path \/ event = FsReadFileSync path).
Proof.
  intros yp yp' jp schema options process args Hoff.
  assert (Hcl : forall y p, parsedCommandLine y options p = VObj []).
  { intros y p. unfold parsedCommandLine, optionsCommandLine.
    now rewrite Hoff. }
  assert (Hpath : forall y p,
             configJsonFile y options p
             = JS.or (JS.or (JS.or VUndefined
                 (match env_CONFIG_JSON_FILE p with
                  | Some e => VStr e
                  | None => VUndefined
                  end))
                 (match optionsJsonFile options with
                  | JsonFilePath q => VStr q
                  | JsonFileFlag _ => VNull
                  end))
                 (VStr "./config.json")).
  { intros y p. unfold configJsonFile. now rewrite Hcl. }
  split; [apply Hcl|]. split; [apply Hpath|]. split.
  - unfold getConfigGetter, resolve, rawData, merged.
    rewrite !Hcl, !Hpath. reflexivity.
  - intros event Hin.
    unfold getConfigGetter, resolve, rawData, merged in Hin.
    rewrite !Hcl in Hin.
    set (path := configJsonFile yp options process) in *.
    unfold bindE, existsSync, readFileSync in Hin. simpl in Hin.
    repeat match type of Hin with
           | context [if ?b then _ else _] => destruct b; simpl in Hin
           | context [match ?c with _ => _ end] => destruct c; simpl in Hin
           end;
      repeat match type of Hin with
             | _ \/ _ => destruct Hin as [Hin | Hin]
             | False => contradiction
             | _ = event => subst event; eexists; eauto
             end.
Qed.

Lemma X13_command_line_disabled_witness :
  let options :=
    {| prefix := None; jsonFile := None; commandLine := Some false;
       defaultsFn := Some (VObj [("a", VNum 1)]) |} in
  getConfigGetter
    (Sample.tokenizer (VObj [("_", VArr [VStr "x"]); ("help", VBool true)]))
    (Sample.reader Sample.text_a2 Sample.json_a2)
    (Sample.numberFields ["a"]) options
    (Sample.process ["x"; "--help"] Sample.noFiles)
  = getConfigGetter
      (Sample.tokenizer (VObj [("_", VArr [])]))
      (Sample.reader Sample.text_a2 Sample.json_a2)
      (Sample.numberFields ["a"]) options
      (withArgv (Sample.process ["x"; "--help"] Sample.noFiles) []).
Proof.
  intros options.
  apply (proj1 (proj2 (proj2 (X13_command_line_disabled_ignores_arguments
                         (Sample.tokenizer
                            (VObj [("_", VArr [VStr "x"]); ("help", VBool true)]))
                         (Sample.tokenizer (VObj [("_", VArr [])]))
                         (Sample.reader Sample.text_a2 Sample.json_a2)
                         (Sample.numberFields ["a"]) options
                         (Sample.process ["x"; "--help"] Sample.noFiles) []
                         eq_refl)))).
Defined.

(** ** A file that does not hold a mapping *)

Lemma mergeWith_inert_source : forall customizer before source after object,
  (forall o, Lodash.baseMerge customizer o source = Return o) ->
  Lodash.mergeWith customizer object (before ++ source :: after)
  = Lodash.mergeWith customizer object (before ++ after).
Proof.
  intros customizer before source after object H. revert object.
  induction before as [|s before IH]; intros object; simpl.
  - rewrite H. now destruct (JS.truthy source).
  - destruct (if JS.truthy s then Lodash.baseMerge customizer object s
              else Return object); simpl; auto.
Qed.

(** A prefix finds nothing in a value that has no properties. *)
Lemma prefixedRaw_of_no_properties : forall options raw,
  (forall k, JS.optMember raw k = VUndefined) ->
  forall customizer o,
    Lodash.baseMerge customizer o
      (JS.coalesce (prefixedRaw options raw) (VObj [])) = Return o.
Proof.
  intros options raw Hno customizer o. unfold prefixedRaw.
  destruct (prefix options) as [p|]; [|reflexivity].
  unfold JS.and. simpl.
  destruct (String.eqb_spec p "") as [->|Hne]; [reflexivity|]. simpl.
  destruct (JS.split "." p) as [|segment segments] eqn:Hs.
  - now apply split_not_nil in Hs.
  - unfold walk. simpl. rewrite Hno. fold (walk segments VUndefined).
    now rewrite walk_undefined.
Qed.

(** X15: a JSON file whose content is [null], a boolean or a number
    contributes nothing, and raises nothing: the candidate is the one
    built when there is no file.  [merged] is the same for such raw data
    as for the empty mapping. *)
Theorem X15_file_without_a_mapping_contributes_nothing :
  forall yargsParser options process raw,
    propertyless raw = true ->
    merged yargsParser options process raw
    = merged yargsParser options process (VObj [])
    /\ merged yargsParser options process raw
       = fmap VObj
           (Lodash.mergeWith deepConfigMerge []
              [ defaults options;
                parsedCommandLine yargsParser options process ]).
Proof.
  intros yp options process raw Hraw.
  assert (Hnone : forall r,
             (forall k, JS.optMember r k = VUndefined) ->
             (forall o, Lodash.baseMerge deepConfigMerge o r = Return o) ->
             merged yp options process r
             = fmap VObj
                 (Lodash.mergeWith deepConfigMerge []
                    [ defaults options;
                      parsedCommandLine yp options process ])).
  { intros r Hno Hinert. unfold merged. rewrite coalesce_defaults.
    apply f_equal.
    etransitivity;
      [exact (mergeWith_inert_source deepConfigMerge [defaults options] r
                [ JS.coalesce (prefixedRaw options r) (VObj []);
                  parsedCommandLine yp options process ] [] Hinert)|].
    exact (mergeWith_inert_source deepConfigMerge [defaults options]
             (JS.coalesce (prefixedRaw options r) (VObj []))
             [parsedCommandLine yp options process] []
             (prefixedRaw_of_no_properties options r Hno deepConfigMerge)). }
  assert (Hr : merged yp options process raw
               = fmap VObj
                   (Lodash.mergeWith deepConfigMerge []
                      [ defaults options;
                        parsedCommandLine yp options process ])).
  { apply Hnone; destruct raw; try discriminate; reflexivity. }
  split; [|exact Hr].
  rewrite Hr. symmetry. apply Hnone; reflexivity.
Qed.

Lemma X15_file_without_a_mapping_witness :
  merged (Sample.tokenizer (VObj [("_", VArr []); ("a", VNum 3)]))
    (Sample.options (Some "a.b") (Some (VObj [("a", VNum 1)])))
    (Sample.process ["--a"; "3"] Sample.noFiles)
    (VNum 5)
  = merged (Sample.tokenizer (VObj [("_", VArr []); ("a", VNum 3)]))
      (Sample.options (Some "a.b") (Some (VObj [("a", VNum 1)])))
      (Sample.process ["--a"; "3"] Sample.noFiles)
      (VObj []).
Proof.
  apply (proj1 (X15_file_without_a_mapping_contributes_nothing
                  (Sample.tokenizer (VObj [("_", VArr []); ("a", VNum 3)]))
                  (Sample.options (Some "a.b") (Some (VObj [("a", VNum 1)])))
                  (Sample.process ["--a"; "3"] Sample.noFiles)
                  (VNum 5) eq_refl)).
Defined.

(** ** The warning about positionals *)

Lemma warnings_positionals : forall cl ps,
  JS.member cl "_" = VArr ps ->
  warnings cl
  = (match ps with [] => [] | _ :: _ => [ConsoleWarn (VArr ps)] end,
     Return tt).
Proof.
  intros cl ps H. unfold warnings. rewrite H.
  change (JS.optMember (VArr ps) "length")
    with (VNum (Z.of_nat (List.length ps))).
  destruct ps as [|x ps]; [reflexivity|].
  unfold positive.
  replace (0 <? Z.of_nat (List.length (x :: ps)))%Z with true; [reflexivity|].
  symmetry. apply Z.ltb_lt. simpl. lia.
Qed.

(** What follows the warning step produces no warning. *)
Lemma resolve_after_warnings :
  forall yp jp schema options process,
    snd (warnings (parsedCommandLine yp options process)) = Return tt ->
    exists rest,
      fst (getConfigGetter yp jp schema options process)
      = fst (warnings (parsedCommandLine yp options process)) ++ rest
      /\ forall v, ~ In (ConsoleWarn v) rest.
Proof.
  intros yp jp schema options process Hw.
  unfold getConfigGetter, resolve.
  set (cl := parsedCommandLine yp options process) in *.
  unfold bindE at 1 2. rewrite Hw. cbn [fst snd].
  match goal with
  | |- context [fst (warnings cl) ++ fst ?k] => set (cont := k)
  end.
  assert (Hc : forall v, ~ In (ConsoleWarn v) (fst cont)).
  { intros v Hin. subst cont.
    unfold rawData, bindE, existsSync, readFileSync in Hin. simpl in Hin.
    repeat match type of Hin with
           | context [if ?b then _ else _] => destruct b; simpl in Hin
           | context [match ?c with _ => _ end] => destruct c; simpl in Hin
           end;
      repeat match type of Hin with
             | _ \/ _ => destruct Hin as [Hin | Hin]
             | False => contradiction
             | _ = ConsoleWarn _ => discriminate
             end. }
  destruct (snd cont); cbn [fst snd];
    first [ exists (fst cont ++ []); split;
            [reflexivity | intros v Hin; rewrite app_nil_r in Hin;
                           exact (Hc v Hin)]
          | exists (fst cont); split;
            [first [reflexivity | now rewrite app_nil_r] | exact Hc] ].
Qed.

(** X16: unrecognized positionals are warned about once and do not stop
    the resolution.  With the positionals an array, the trace of
    [getConfigGetter] holds a warning exactly when the array is not empty;
    the warning is about that array, it is the first event, and no other
    warning follows it. *)
Theorem X16_positionals_are_warned_about_once :
  forall yargsParser JSON_parse schema options process ps,
    JS.member (parsedCommandLine yargsParser options process) "_" = VArr ps ->
    exists rest,
      fst (getConfigGetter yargsParser JSON_parse schema options process)
      = match ps with [] => [] | _ :: _ => [ConsoleWarn (VArr ps)] end ++ rest
      /\ (forall v, ~ In (ConsoleWarn v) rest)
      /\ (forall v,
             In (ConsoleWarn v)
                (fst (getConfigGetter yargsParser JSON_parse schema options
                        process))
             <-> v = VArr ps /\ ps <> []).
Proof.
  intros yp jp schema options process ps Hps.
  pose proof (warnings_positionals _ ps Hps) as Hw.
  destruct (resolve_after_warnings yp jp schema options process) as
    (rest & Hfst & Hrest).
  { now rewrite Hw. }
  rewrite Hw in Hfst. cbn [fst] in Hfst.
  exists rest. split; [exact Hfst|]. split; [exact Hrest|].
  intros v. rewrite Hfst. split.
  - intros Hin. apply in_app_or in Hin as [Hin | Hin].
    + destruct ps; simpl in Hin; [contradiction|].
      destruct Hin as [Hin | []]. injection Hin as <-.
      split; [reflexivity|discriminate].
    + now apply Hrest in Hin.
  - intros [-> Hne]. apply in_or_app. left.
    destruct ps; [contradiction|]. now left.
Qed.

Lemma X16_positionals_witness :
  exists rest,
    fst (getConfigGetter
           (Sample.tokenizer (VObj [("_", VArr [VStr "stray"])]))
           (Sample.reader Sample.text_a2 Sample.json_a2)
           (Sample.numberFields [])
           (Sample.options None None)
           (Sample.process ["stray"] Sample.noFiles))
    = [ConsoleWarn (VArr [VStr "stray"])] ++ rest
    /\ (forall v, ~ In (ConsoleWarn v) rest)
    /\ (forall v,
           In (ConsoleWarn v)
              (fst (getConfigGetter
                      (Sample.tokenizer (VObj [("_", VArr [VStr "stray"])]))
                      (Sample.reader Sample.text_a2 Sample.json_a2)
                      (Sample.numberFields [])
                      (Sample.options None None)
                      (Sample.process ["stray"] Sample.noFiles)))
           <-> v = VArr [VStr "stray"] /\ [VStr "stray"] <> []).
Proof.
  apply (X16_positionals_are_warned_about_once
           (Sample.tokenizer (VObj [("_", VArr [VStr "stray"])]))
           (Sample.reader Sample.text_a2 Sample.json_a2)
           (Sample.numberFields [])
           (Sample.options None None)
           (Sample.process ["stray"] Sample.noFiles)
           [VStr "stray"]).
  reflexivity.
Defined.

(** * Further properties of the accessor *)

Lemma split_dot_app : forall p q,
  JS.split "." (p ++ String "." q) = JS.split "." p ++ JS.split "." q.
Proof.
  induction p as [|c p IH]; intros q; simpl.
  - reflexivity.
  - destruct (Ascii.eqb c "."); simpl.
    + now rewrite IH.
    + rewrite IH.
      destruct (JS.split "." p) as [|segment segments] eqn:E.
      * now apply split_not_nil in E.
      * reflexivity.
Qed.

Lemma walk_dotted : forall p q data,
  walk (JS.split "." (p ++ String "." q)) data
  = walk (JS.split "." q) (walk (JS.split "." p) data).
Proof. intros. now rewrite split_dot_app, walk_app. Qed.

(** X17: dotted paths compose.  Reading [p.q] is reading [q] in what
    reading [p] returns: when the accessor returns a value for [p], then
    for the path [p.q] it returns what the accessor over that value
    returns for [q], with a fallback and, when [q] is present there,
    without one. *)
Theorem X17_dotted_paths_compose :
  forall data p q sub,
    getter data p None = Return sub ->
    (forall fallback, fallback <> VUndefined ->
       getter data (p ++ String "." q) (Some fallback)
       = getter sub q (Some fallback))
    /\ (forall v, getter sub q None = Return v ->
          getter data (p ++ String "." q) None = Return v).
Proof.
  intros data p q sub Hp.
  assert (Hsub : walk (JS.split "." p) data = sub).
  { unfold getter in Hp. simpl in Hp.
    destruct (JS.is_undefined (walk (JS.split "." p) data));
      [discriminate|now injection Hp]. }
  split.
  - intros fallback Hf. unfold getter. rewrite walk_dotted, Hsub.
    apply is_undefined_false in Hf. simpl. rewrite Hf.
    reflexivity.
  - intros v Hv. unfold getter in *. rewrite walk_dotted, Hsub.
    simpl in *. destruct (JS.is_undefined (walk (JS.split "." q) sub));
      [discriminate|exact Hv].
Qed.

Lemma X17_dotted_paths_witness :
  getter Sample.data ("someObject" ++ String "." "someNestedValue")
    (Some (VBool true))
  = getter (VObj [("someNestedValue", VBool false)]) "someNestedValue"
      (Some (VBool true))
  /\ getter Sample.data ("someObject" ++ String "." "someNestedValue") None
     = Return (VBool false).
Proof.
  split.
  - apply (proj1 (X17_dotted_paths_compose Sample.data "someObject"
                    "someNestedValue"
                    (VObj [("someNestedValue", VBool false)]) eq_refl));
      discriminate.
  - apply (proj2 (X17_dotted_paths_compose Sample.data "someObject"
                    "someNestedValue"
                    (VObj [("someNestedValue", VBool false)]) eq_refl)).
    reflexivity.
Defined.

Lemma walk_nullish : forall segments v,
  JS.nullish v = true -> segments <> [] -> walk segments v = VUndefined.
Proof.
  intros [|segment segments] v Hn Hs; [contradiction|].
  change (walk (segment :: segments) v)
    with (walk segments (JS.optMember v segment)).
  unfold JS.optMember. rewrite Hn. apply walk_undefined.
Qed.

(** X18: a path that runs into [null] or into nothing is absent, never a
    type error.  When the walk along [p] ends at [null] or [undefined],
    the accessor for any longer path [p.q] returns the fallback if one is
    given and otherwise throws the undefined-key error naming [p.q]. *)
Theorem X18_path_through_null_is_absent :
  forall data p q,
    JS.nullish (walk (JS.split "." p) data) = true ->
    (forall fallback, fallback <> VUndefined ->
       getter data (p ++ String "." q) (Some fallback) = Return fallback)
    /\ getter data (p ++ String "." q) None
       = Throw (Error ("The config variable '" ++ (p ++ String "." q)
                       ++ "' is not defined.")).
Proof.
  intros data p q Hn.
  assert (Hu : walk (JS.split "." (p ++ String "." q)) data = VUndefined).
  { rewrite walk_dotted. apply walk_nullish; [exact Hn|].
    apply split_not_nil. }
  split.
  - intros fallback Hf. unfold getter. rewrite Hu. simpl.
    apply is_undefined_false in Hf. now rewrite Hf.
  - unfold getter. now rewrite Hu.
Qed.

Lemma X18_path_through_null_witness :
  getter Sample.data ("nothing" ++ String "." "deeper") (Some (VNum 7))
    = Return (VNum 7)
  /\ getter Sample.data ("nothing" ++ String "." "deeper") None
     = Throw (Error "The config variable 'nothing.deeper' is not defined.").
Proof.
  split.
  - apply (proj1 (X18_path_through_null_is_absent Sample.data "nothing"
                    "deeper" eq_refl)).
    discriminate.
  - apply (proj2 (X18_path_through_null_is_absent Sample.data "nothing"
                    "deeper" eq_refl)).
Defined.

(** * Precedence across the four sources *)

(** X19: on scalars the last source that has a key decides.  When the
    four sources are mappings without repeated keys and each of them holds
    under a key either nothing or a boolean, a number or a string, the
    candidate holds there the value of the command line if it has one,
    else that of the prefixed sub-tree, else that of the file, else that
    of the defaults, and nothing if none has the key. *)
Theorem X19_last_source_with_the_key_decides_a_scalar :
  forall yargsParser options process d r s c candidate k,
    defaults options = VObj d ->
    JS.coalesce (prefixedRaw options (VObj r)) (VObj []) = VObj s ->
    parsedCommandLine yargsParser options process = VObj c ->
    distinct (map fst d) = true -> distinct (map fst r) = true ->
    distinct (map fst s) = true -> distinct (map fst c) = true ->
    (forall src v, In src [d; r; s; c] -> JS.lookup src k = Some v ->
                   scalar v = true) ->
    merged yargsParser options process (VObj r) = Return candidate ->
    JS.member candidate k
    = match JS.lookup c k, JS.lookup s k, JS.lookup r k, JS.lookup d k with
      | Some v, _, _, _ => v
      | None, Some v, _, _ => v
      | None, None, Some v, _ => v
      | None, None, None, Some v => v
      | None, None, None, None => VUndefined
      end.
Proof.
  intros yp options process d r s c candidate k Hd Hs Hc Dd Dr Ds Dc Hsc Hm.
  destruct (merged_of_mappings _ _ _ _ _ _ _ _ Hd Hs Hc r eq_refl Hm)
    as (o1 & o2 & o3 & o4 & H1 & H2 & H3 & H4 & ->).
  destruct (baseMergeProps_scalar_step d [] o1 k Dd H1 eq_refl) as [Q1 I1].
  { intros v. apply (Hsc d). now left. }
  destruct (baseMergeProps_scalar_step r o1 o2 k Dr H2 I1) as [Q2 I2].
  { intros v. apply (Hsc r). right; now left. }
  destruct (baseMergeProps_scalar_step s o2 o3 k Ds H3 I2) as [Q3 I3].
  { intros v. apply (Hsc s). right; right; now left. }
  destruct (baseMergeProps_scalar_step c o3 o4 k Dc H4 I3) as [Q4 _].
  { intros v. apply (Hsc c). right; right; right; now left. }
  change (JS.member (VObj o4) k) with (Lodash.safeGet o4 k).
  rewrite Q4, Q3, Q2, Q1.
  rewrite <- (last_of_four d r s c k). unfold Lodash.safeGet.
  change (JS.lookup [] k) with (@None value).
  now destruct (JS.lookup d k).
Qed.

Lemma X19_last_source_witness :
  JS.member
    (VObj [ ("level", VStr "file"); ("name", VStr "d");
            ("apps", VObj [("x", VObj [("name", VStr "x")])]);
            ("_", VArr []) ])
    "level"
  = VStr "file".
Proof.
  apply (X19_last_source_with_the_key_decides_a_scalar
           (Sample.tokenizer (VObj [("_", VArr [])]))
           (Sample.options (Some "apps.y")
              (Some (VObj [("level", VStr "default"); ("name", VStr "d")])))
           (Sample.process [] Sample.noFiles)
           [("level", VStr "default"); ("name", VStr "d")]
           [ ("apps", VObj [("x", VObj [("name", VStr "x")])]);
             ("level", VStr "file") ]
           []
           [("_", VArr [])]);
    try reflexivity.
  intros src v [<- | [<- | [<- | [<- | []]]]] H; simpl in H;
    try discriminate; now injection H as <-.
Defined.

(** One source merged in, seen at a key where arrays meet. *)
Lemma baseMergeProps_array_step : forall src acc m k a,
  distinct (map fst src) = true ->
  Lodash.baseMergeProps deepConfigMerge acc src = Return m ->
  Lodash.safeGet acc k = VArr a ->
  (forall v, JS.lookup src k = Some v ->
     exists b, v = VArr b
               /\ forallb (fun x => negb (JS.isArray x)) b = true) ->
  Lodash.safeGet m k
  = VArr (a ++ match JS.lookup src k with Some (VArr b) => b | _ => [] end).
Proof.
  intros src acc m k a D H Hacc Hflat.
  pose proof (baseMergeProps_returns src acc m D H k) as R.
  unfold Lodash.safeGet at 2 in R. rewrite Hacc in R.
  destruct (JS.lookup src k) as [v|].
  - destruct (Hflat v eq_refl) as (b & -> & Hb).
    rewrite (deepConfigMerge_arrays_flat a b k Hb) in R. now injection R.
  - rewrite deepConfigMerge_override_undefined, app_nil_r in *.
    now injection R.
Qed.

(** X20: arrays accumulate in the order of the sources.  When the four
    sources are well-formed mappings, the defaults hold an array under a
    key and each later source (file, prefixed sub-tree, command line)
    holds there either nothing or an array none of whose elements is an
    array, the candidate holds the defaults' array followed by the
    file's, then the prefixed sub-tree's, then the command line's. *)
Theorem X20_arrays_accumulate_in_source_order :
  forall yargsParser options process d r s c candidate k a,
    defaults options = VObj d ->
    JS.coalesce (prefixedRaw options (VObj r)) (VObj []) = VObj s ->
    parsedCommandLine yargsParser options process = VObj c ->
    wf_value (VObj d) = true -> wf_value (VObj r) = true ->
    wf_value (VObj s) = true -> wf_value (VObj c) = true ->
    JS.lookup d k = Some (VArr a) ->
    (forall src v, In src [r; s; c] -> JS.lookup src k = Some v ->
       exists b, v = VArr b
                 /\ forallb (fun x => negb (JS.isArray x)) b = true) ->
    merged yargsParser options process (VObj r) = Return candidate ->
    JS.member candidate k
    = VArr (((a ++ match JS.lookup r k with Some (VArr b) => b | _ => [] end)
               ++ match JS.lookup s k with Some (VArr b) => b | _ => [] end)
              ++ match JS.lookup c k with Some (VArr b) => b | _ => [] end).
Proof.
  intros yp options process d r s c candidate k a Hd Hs Hc Wd Wr Ws Wc
    Ha Hflat Hm.
  pose proof (wf_object_distinct _ Wd) as Dd.
  pose proof (wf_object_distinct _ Wr) as Dr.
  pose proof (wf_object_distinct _ Ws) as Ds.
  pose proof (wf_object_distinct _ Wc) as Dc.
  destruct (merged_of_mappings _ _ _ _ _ _ _ _ Hd Hs Hc r eq_refl Hm)
    as (o1 & o2 & o3 & o4 & H1 & H2 & H3 & H4 & ->).
  assert (Q1 : Lodash.safeGet o1 k = VArr a).
  { pose proof (baseMergeProps_returns d [] o1 Dd H1 k) as R.
    unfold Lodash.safeGet at 1 2 in R. rewrite Ha in R. simpl in R.
    now injection R. }
  pose proof (baseMergeProps_array_step r o1 o2 k _ Dr H2 Q1
                (fun v => Hflat r v (or_introl eq_refl))) as Q2.
  pose proof (baseMergeProps_array_step s o2 o3 k _ Ds H3 Q2
                (fun v => Hflat s v (or_intror (or_introl eq_refl)))) as Q3.
  exact (baseMergeProps_array_step c o3 o4 k _ Dc H4 Q3
           (fun v => Hflat c v
                       (or_intror (or_intror (or_introl eq_refl))))).
Qed.

Lemma X20_arrays_accumulate_witness :
  JS.member
    (VObj [ ("tags", VArr [VStr "d"; VStr "f"; VStr "x"; VStr "c"]);
            ("apps", VObj [("x", VObj [("tags", VArr [VStr "x"])])]);
            ("_", VArr []) ])
    "tags"
  = VArr ((([VStr "d"] ++ [VStr "f"]) ++ [VStr "x"]) ++ [VStr "c"]).
Proof.
  apply (X20_arrays_accumulate_in_source_order
           (Sample.tokenizer
              (VObj [("_", VArr []); ("tags", VArr [VStr "c"])]))
           (Sample.options (Some "apps.x")
              (Some (VObj [("tags", VArr [VStr "d"])])))
           (Sample.process ["--tags"; "c"] Sample.noFiles)
           [("tags", VArr [VStr "d"])]
           [ ("tags", VArr [VStr "f"]);
             ("apps", VObj [("x", VObj [("tags", VArr [VStr "x"])])]) ]
           [("tags", VArr [VStr "x"])]
           [("_", VArr []); ("tags", VArr [VStr "c"])]);
    try reflexivity.
  intros src v [<- | [<- | [<- | []]]] H; simpl in H;
    try discriminate; injection H as <-; eexists; split; reflexivity.
Defined.
